(** * chat.py: a terminal chat client, embedded in Rocq

    The development follows the one source file of the repository,
    [chat.py].  Python values are modelled as the program has them: a [str]
    is a sequence of Unicode code points, an [int] is a [Z], a raised
    exception is an explicit result, and the module-level objects
    ([chatContent], [output_area], [input_area], [status]) are the fields of
    one state record that every function threads through. *)

From Stdlib Require Import String Ascii DecimalString Bool ZArith NArith Lia List Sorted.
Import ListNotations.

Set Implicit Arguments.

(** ** Python values and builtins *)

Module Py.

(** A Python [str]: the sequence of its code points. *)
Definition str : Type := list N.

(** An ASCII literal of the source, as a [str]. *)
Definition lit (s : string) : str := map N_of_ascii (list_ascii_of_string s).

(** An instance of Python's [Exception] class; [message] is [str(err)],
    the only thing the program ever reads from a caught exception. *)
Inductive Exception : Type := Exc (message : str).

Definition str_of (err : Exception) : str :=
  match err with Exc message => message end.

(** What evaluating a call gives: a value, or a raised [Exception]. *)
Inductive outcome (A : Type) : Type :=
| Returned (a : A)
| Raised (err : Exception).

Arguments Returned {A} a.
Arguments Raised {A} err.

Definition IndexError : Exception := Exc (lit "list index out of range").

(** [c.isspace()]: the characters [str.strip()] removes.  The table is
    CPython's [_PyUnicode_IsWhitespace]. *)
Definition isspace (c : N) : bool :=
  ((9 <=? c) && (c <=? 13) || (28 <=? c) && (c <=? 32)
   || (c =? 133) || (c =? 160) || (c =? 5760)
   || (8192 <=? c) && (c <=? 8202)
   || (c =? 8232) || (c =? 8233) || (c =? 8239) || (c =? 8287)
   || (c =? 12288))%N.

Fixpoint lstrip (s : str) : str :=
  match s with
  | [] => []
  | c :: s' => if isspace c then lstrip s' else s
  end.

Definition rstrip (s : str) : str := rev (lstrip (rev s)).

(** [s.strip()] *)
Definition strip (s : str) : str := rstrip (lstrip s).

(** The line boundaries of [str.splitlines()]
    (CPython's [_PyUnicode_IsLinebreak]). *)
Definition is_linebreak (c : N) : bool :=
  ((10 <=? c) && (c <=? 13) || (28 <=? c) && (c <=? 30)
   || (c =? 133) || (c =? 8232) || (c =? 8233))%N.

(** [s.splitlines()]: the lines without their terminators; a carriage
    return followed by a line feed is one boundary, and a final terminator
    does not open a last empty line. *)
Fixpoint splitlines (s : str) : list str :=
  match s with
  | [] => []
  | c :: s' =>
      if is_linebreak c then
        [] :: match s' with
              | c' :: s'' =>
                  if ((c =? 13) && (c' =? 10))%N then splitlines s''
                  else splitlines s'
              | [] => []
              end
      else
        match splitlines s' with
        | [] => [[c]]
        | l :: ls => (c :: l) :: ls
        end
  end.

(** [s.split("\n")]: always at least one piece. *)
Fixpoint split_newline (s : str) : list str :=
  match s with
  | [] => [[]]
  | c :: s' =>
      if (c =? 10)%N then [] :: split_newline s'
      else
        match split_newline s' with
        | [] => [[c]]
        | l :: ls => (c :: l) :: ls
        end
  end.

(** [l[i]] on a list: a negative index counts from the end, and an index
    outside [-len(l) .. len(l)-1] raises [IndexError]. *)
Definition getitem {A : Type} (l : list A) (i : Z) : outcome A :=
  let n := Z.of_nat (length l) in
  let j := if (i <? 0)%Z then (i + n)%Z else i in
  if (j <? 0)%Z then Raised IndexError
  else match nth_error l (Z.to_nat j) with
       | Some a => Returned a
       | None => Raised IndexError
       end.

(** [len(s)] as a Python [int]. *)
Definition len {A : Type} (l : list A) : Z := Z.of_nat (length l).

(** The slices [s[:i]] and [s[i:]]; a negative bound counts from the end
    and every bound is clipped to the sequence. *)
Definition clip (n : nat) (i : Z) : nat :=
  Z.to_nat (Z.min (Z.of_nat n) (if (i <? 0)%Z then Z.max 0 (i + Z.of_nat n) else i)).

Definition slice_to {A : Type} (l : list A) (i : Z) : list A :=
  firstn (clip (length l) i) l.

Definition slice_from {A : Type} (l : list A) (i : Z) : list A :=
  skipn (clip (length l) i) l.

End Py.

Import Py.

(** ** The prompt_toolkit objects the program drives

    [chat.py] builds its two panes from prompt_toolkit's [TextArea] and
    reaches into their [Buffer]s; its lexer hands every line to
    prompt_toolkit's [ANSI].  Those methods belong to the library
    (prompt_toolkit 3.0), not to [chat.py]; each definition below names the
    library method it follows, statement by statement, in
    [prompt_toolkit/document.py], [buffer.py], [widgets/base.py] and
    [formatted_text/ansi.py]. *)

Module Pt.

(** [Document.lines]: [text.split("\n")]. *)
Definition lines (text : str) : list str := split_newline text.

(** The loop of [Document._line_start_indexes]: after each line the
    position advances by its length plus one. *)
Fixpoint cumulative (pos : Z) (line_lengths : list Z) : list Z :=
  match line_lengths with
  | [] => []
  | n :: rest => (pos + n + 1)%Z :: cumulative (pos + n + 1)%Z rest
  end.

(** [Document._line_start_indexes]: [[0]] followed by the cumulative
    positions, the last of which is popped when there is more than one. *)
Definition line_start_indexes (text : str) : list Z :=
  let indexes := 0%Z :: cumulative 0 (map (@len N) (lines text)) in
  if (1 <? len indexes)%Z then removelast indexes else indexes.

(** [bisect.bisect_right(a, x)] on a sorted list: the insertion point to
    the right of every entry that is at most [x]. *)
Fixpoint bisect_right (a : list Z) (x : Z) : Z :=
  match a with
  | [] => 0
  | y :: a' => if (x <? y)%Z then 0 else 1 + bisect_right a' x
  end%Z.

(** [l[i]] where the index cannot be out of range. *)
Definition item {A : Type} (l : list A) (i : Z) (default : A) : A :=
  match getitem l i with
  | Returned a => a
  | Raised _ => default
  end.

(** [Document._find_line_start_index(index)]: the row of [index] and the
    index at which that row starts. *)
Definition find_line_start_index (text : str) (index : Z) : Z * Z :=
  let indexes := line_start_indexes text in
  let pos := (bisect_right indexes index - 1)%Z in
  (pos, item indexes pos 0%Z).

Definition cursor_position_row (text : str) (cursor : Z) : Z :=
  fst (find_line_start_index text cursor).

Definition cursor_position_col (text : str) (cursor : Z) : Z :=
  (cursor - snd (find_line_start_index text cursor))%Z.

(** [Document.translate_row_col_to_index(row, col)]: a row outside the
    document ([IndexError]) falls back to the first or the last line, the
    column is clipped to the line and the result to the text. *)
Definition translate_row_col_to_index (text : str) (row col : Z) : Z :=
  let indexes := line_start_indexes text in
  let found :=
    match getitem indexes row, getitem (lines text) row with
    | Returned result, Returned line => (result, line)
    | _, _ =>
        if (row <? 0)%Z then (item indexes 0 0%Z, item (lines text) 0 [])
        else (item indexes (-1) 0%Z, item (lines text) (-1) [])
    end in
  let result := (fst found + Z.max 0 (Z.min col (len (snd found))))%Z in
  Z.max 0 (Z.min result (len text)).

(** [Document.get_cursor_down_position(count, preferred_column)], a
    relative move; the library asserts [count >= 1]. *)
Definition get_cursor_down_position
  (text : str) (cursor : Z) (count : Z) (preferred_column : option Z) : Z :=
  let column :=
    match preferred_column with
    | None => cursor_position_col text cursor
    | Some c => c
    end in
  (translate_row_col_to_index text (cursor_position_row text cursor + count) column
   - cursor)%Z.

(** The part of a [Buffer] the program reads and writes. *)
Record Buffer : Type := mkBuffer {
  text : str;
  cursor_position : Z;
  preferred_column : option Z
}.

Definition empty_buffer : Buffer := mkBuffer [] 0 None.

Definition str_eqb (a b : str) : bool :=
  if list_eq_dec N.eq_dec a b then true else false.

(** [Buffer.set_document(Document(value, cpos))]: text and cursor are set
    together; a change of either forgets the preferred column. *)
Definition set_document (value : str) (cpos : Z) (b : Buffer) : Buffer :=
  let cursor := Z.max 0 cpos in
  let text_changed := negb (str_eqb value (text b)) in
  let cursor_position_changed := negb (cursor =? cursor_position b)%Z in
  mkBuffer value cursor
    (if text_changed || cursor_position_changed then None
     else preferred_column b).

(** The setter of [Buffer.cursor_position]: the value is kept within the
    text. *)
Definition set_cursor_position (value : Z) (b : Buffer) : Buffer :=
  let value := if (len (text b) <? value)%Z then len (text b) else value in
  let value := if (value <? 0)%Z then 0%Z else value in
  mkBuffer (text b) value
    (if (value =? cursor_position b)%Z then preferred_column b else None).

(** [Buffer.insert_text(data)]: insert characters at the cursor position
    and leave the cursor after them. *)
Definition insert_text (data : str) (b : Buffer) : Buffer :=
  let otext := text b in
  let ocpos := cursor_position b in
  let text' := slice_to otext ocpos ++ data ++ slice_from otext ocpos in
  let cpos := (cursor_position b + len data)%Z in
  set_document text' cpos b.

(** [Buffer.cursor_down(count)]: move to the line [count] rows below,
    keeping the column. *)
Definition cursor_down (count : Z) (b : Buffer) : Buffer :=
  let col := cursor_position_col (text b) (cursor_position b) in
  let original_column :=
    match preferred_column b with
    | Some c => if (c =? 0)%Z then col else c
    | None => col
    end in
  let b' :=
    set_cursor_position
      (cursor_position b
       + get_cursor_down_position (text b) (cursor_position b) count
           (Some original_column))%Z b in
  mkBuffer (text b') (cursor_position b') (Some original_column).

(** The setter of [TextArea.text]: [Document(value, 0)]. *)
Definition set_text (value : str) (b : Buffer) : Buffer := set_document value 0 b.

(** *** [ANSI]: escape sequences to (style, text) fragments *)

(** The style of a fragment.  [ANSI._parse_corot] starts with the literal
    empty style; after a colour sequence the style is
    [_create_style_string()] of the attributes left by every
    [_select_graphic_rendition(params)] so far, and the model keeps that
    list of [params], oldest first, in place of the string. *)
Inductive style : Type :=
| Plain
| Sgr (applied : list (list Z))
| ZeroWidthEscape.

Definition fragment : Type := (style * str)%type.

(** Where the coroutine [_parse_corot] is suspended. *)
Inductive mode : Type :=
| Top
| Escaped (escaped_text : str)
| AfterEscaped
| SawEsc
| Csi (current : str) (params : list Z).

Record parser : Type := mkParser {
  at_yield : mode;
  current_style : style;
  applied_params : list (list Z);
  formatted_text : list fragment
}.

Definition parser_start : parser := mkParser Top Plain [] [].

Section Ansi.

(** [c.isdigit()] and [int(s)] of the Python runtime; [int] raises
    [ValueError] on strings it cannot convert. *)
Variable isdigit : N -> bool.
Variable int : str -> outcome Z.

(** From [# Check for CSI] to the end of the loop body, for the character
    [c] just received. *)
Definition check_csi (c : N) (p : parser) : parser :=
  if (c =? 27)%N then
    mkParser SawEsc (current_style p) (applied_params p) (formatted_text p)
  else if (c =? 155)%N then
    mkParser (Csi [] []) (current_style p) (applied_params p) (formatted_text p)
  else
    mkParser Top (current_style p) (applied_params p)
      (formatted_text p ++ [(current_style p, [c])]).

(** [parser.send(c)]: run the coroutine to its next [yield]. *)
Definition send (c : N) (p : parser) : outcome parser :=
  match at_yield p with
  | Top =>
      if (c =? 1)%N then
        Returned (mkParser (Escaped []) (current_style p) (applied_params p)
                    (formatted_text p))
      else Returned (check_csi c p)
  | Escaped escaped_text =>
      if (c =? 2)%N then
        Returned (mkParser AfterEscaped (current_style p) (applied_params p)
                    (formatted_text p ++ [(ZeroWidthEscape, escaped_text)]))
      else
        Returned (mkParser (Escaped (escaped_text ++ [c])) (current_style p)
                    (applied_params p) (formatted_text p))
  | AfterEscaped => Returned (check_csi c p)
  | SawEsc =>
      Returned (mkParser (if (c =? 91)%N then Csi [] [] else Top)
                  (current_style p) (applied_params p) (formatted_text p))
  | Csi current params =>
      if isdigit c then
        Returned (mkParser (Csi (current ++ [c]) params) (current_style p)
                    (applied_params p) (formatted_text p))
      else
        match (match current with [] => Returned 0%Z | _ => int current end) with
        | Raised err => Raised err
        | Returned number =>
            let params := params ++ [Z.min number 9999] in
            if (c =? 59)%N then
              Returned (mkParser (Csi [] params) (current_style p)
                          (applied_params p) (formatted_text p))
            else if (c =? 109)%N then
              let applied := applied_params p ++ [params] in
              Returned (mkParser Top (Sgr applied) applied (formatted_text p))
            else if (c =? 67)%N then
              Returned (mkParser Top (current_style p) (applied_params p)
                          (formatted_text p
                           ++ repeat (current_style p, [32%N])
                                (Z.to_nat (item params 0 0%Z))))
            else
              Returned (mkParser Top (current_style p) (applied_params p)
                          (formatted_text p))
        end
  end.

(** [for c in value: parser.send(c)] *)
Fixpoint send_all (value : str) (p : parser) : outcome parser :=
  match value with
  | [] => Returned p
  | c :: rest =>
      match send c p with
      | Returned p' => send_all rest p'
      | Raised err => Raised err
      end
  end.

(** [to_formatted_text(ANSI(value))]: the fragments collected while the
    characters of [value] were sent. *)
Definition to_formatted_text_ANSI (value : str) : outcome (list fragment) :=
  match send_all value parser_start with
  | Returned p => Returned (formatted_text p)
  | Raised err => Raised err
  end.

End Ansi.

End Pt.

Import Pt.

(** ** chat.py *)

(** An entry of [chatContent]: the dict with keys ["role"], ["content"] and
    ["promptID"]. *)
Record Message : Type := mkMessage {
  role : str;
  content : str;
  promptID : Z
}.

(** *** What lies outside the file

    The environment variables, the [openai] package and the remote service
    behind it, and rich's Markdown renderer.  A [World] fixes how each of
    them answers during one call. *)
Record World : Type := mkWorld {
  (** [os.getenv(name)] *)
  getenv : str -> option str;
  (** [from openai import OpenAI] *)
  import_openai : outcome unit;
  (** [OpenAI(api_key=...)] *)
  OpenAI : option str -> outcome unit;
  (** [client.chat.completions.create(model=..., messages=...)] followed by
      [resp.choices[0].message.content] *)
  create : str -> list Message -> outcome str;
  (** [Console(file=buf, force_terminal=True, color_system="truecolor",
      width=100).print(Markdown(text, code_theme="monokai"))], as the text
      left in [buf] *)
  print_markdown : str -> str
}.

(** *** ANSI theme *)

Definition ESC : str := [27%N].
Definition NEON_RED : str := ESC ++ lit "[38;2;255;60;60m".
Definition NEON_GREEN : str := ESC ++ lit "[38;2;0;255;140m".
Definition NEON_BLUE : str := ESC ++ lit "[38;2;0;210;255m".
Definition NEON_PINK : str := ESC ++ lit "[38;2;255;0;200m".
Definition DIM : str := ESC ++ lit "[2m".
Definition RESET : str := ESC ++ lit "[0m".

(** *** The state of the process *)

(** The two focusable panes. *)
Inductive Widget : Type := OutputArea | InputArea.

(** The module-level objects the functions mutate: the list [chatContent],
    the buffers of [output_area] and [input_area], the text of the [status]
    label (the string wrapped in [ANSI]) and the focus of the layout. *)
Record App : Type := mkApp {
  chatContent : list Message;
  output_area : Buffer;
  input_area : Buffer;
  status : str;
  focus : Widget
}.

Definition status_ready : str := NEON_GREEN ++ lit "Status:" ++ RESET ++ lit " Ready".

Definition status_thinking : str :=
  NEON_GREEN ++ lit "Status:" ++ RESET ++ lit " Thinking" ++ [8230%N].

(** The process as [app.run(pre_run=...)] starts it: nothing exchanged,
    both panes empty, status Ready, focus on the input pane. *)
Definition initial : App := mkApp [] empty_buffer empty_buffer status_ready InputArea.

(** *** Effects, and who performs them *)

(** The asyncio event loop (the UI thread) or a thread of the loop's default
    executor. *)
Inductive context : Type := EventLoop | Worker.

Inductive effect : Type :=
| SetInputText (value : str)
| InsertOutput (ansi_text : str)
| CursorDownOutput (count : Z)
| Invalidate
| SetStatus (label : str)
| RunInExecutor (prompt model : str)
| AppendChat (m : Message)
| Create (model : str) (messages : list Message)
| Resumed (result : outcome str)
| Focus (w : Widget).

Definition event : Type := (context * effect)%type.

(** A computation of the program: it runs in a context, updates the state
    and leaves the effects it performed, in order. *)
Definition M (A : Type) : Type := context -> App -> A * App * list event.

Definition ret {A : Type} (a : A) : M A := fun _ app => (a, app, []).

Definition bind {A B : Type} (c : M A) (k : A -> M B) : M B :=
  fun ctx app =>
    let '(a, app1, t1) := c ctx app in
    let '(b, app2, t2) := k a ctx app1 in
    (b, app2, t1 ++ t2).

Declare Scope chat_scope.
Delimit Scope chat_scope with chat.
Notation "x <- c ;; k" := (bind c (fun x => k))
  (at level 100, c at next level, right associativity) : chat_scope.
Notation "c ;; k" := (bind c (fun _ => k))
  (at level 100, right associativity) : chat_scope.
Open Scope chat_scope.

Definition get : M App := fun _ app => (app, app, []).

(** Perform [eff]: the state changes by [f] and the effect is recorded with
    the context that performed it. *)
Definition perform (eff : effect) (f : App -> App) : M unit :=
  fun ctx app => (tt, f app, [(ctx, eff)]).

(** A statement of a [try] body: when an earlier one has raised, the rest
    is skipped. *)
Definition try_bind {A B : Type} (c : M (outcome A)) (k : A -> M (outcome B))
  : M (outcome B) :=
  r <- c ;;
  match r with
  | Returned a => k a
  | Raised err => ret (Raised err)
  end.

Notation "x <-! c ;; k" := (try_bind c (fun x => k))
  (at level 100, c at next level, right associativity) : chat_scope.

Definition with_chatContent (f : list Message -> list Message) (app : App) : App :=
  mkApp (f (chatContent app)) (output_area app) (input_area app) (status app) (focus app).

Definition with_output_area (f : Buffer -> Buffer) (app : App) : App :=
  mkApp (chatContent app) (f (output_area app)) (input_area app) (status app) (focus app).

Definition with_input_area (f : Buffer -> Buffer) (app : App) : App :=
  mkApp (chatContent app) (output_area app) (f (input_area app)) (status app) (focus app).

Definition with_status (label : str) (app : App) : App :=
  mkApp (chatContent app) (output_area app) (input_area app) label (focus app).

Definition with_focus (w : Widget) (app : App) : App :=
  mkApp (chatContent app) (output_area app) (input_area app) (status app) w.

(** *** OpenAI API *)

(** The body of the [try] in [call_chat]. *)
Definition call_chat_try (w : World) (prompt model : str) : M (outcome str) :=
  _ <-! ret (import_openai w) ;;
  _ <-! ret (OpenAI w (getenv w (lit "OPENAI_API_KEY"))) ;;
  app <- get ;;
  let m := mkMessage (lit "user") prompt (len (chatContent app) + 1) in
  perform (AppendChat m) (with_chatContent (fun chat => chat ++ [m])) ;;
  app <- get ;;
  perform (Create model (chatContent app)) (fun app => app) ;;
  text <-! ret (create w model (chatContent app)) ;;
  ret (Returned text).

(** [call_chat(prompt, model)]: [except Exception as err] turns whatever
    the body raised into the returned text. *)
Definition call_chat (w : World) (prompt model : str) : M (outcome str) :=
  r <- call_chat_try w prompt model ;;
  match r with
  | Returned text => ret (Returned text)
  | Raised err => ret (Returned (lit "OpenAI error: " ++ str_of err))
  end.

(** *** Markdown to ANSI *)

Definition md_to_ansi (w : World) (text : str) : str := print_markdown w text.

(** *** Output area *)

Definition append_output (ansi_text : str) : M unit :=
  perform (InsertOutput ansi_text) (with_output_area (insert_text ansi_text)) ;;
  perform (CursorDownOutput 1000000) (with_output_area (cursor_down 1000000)) ;;
  perform Invalidate (fun app => app).

(** *** Key bindings *)

(** [newline]: escape, enter. *)
Definition newline : M unit :=
  fun _ app => (tt, with_input_area (insert_text [10%N]) app, []).

(** *** Chat logic *)

Definition you_line (prompt : str) : str :=
  [10%N] ++ NEON_GREEN ++ [10148%N] ++ lit " [You]:" ++ RESET ++ lit " " ++ prompt
  ++ [10%N].

Definition rule : str := NEON_PINK ++ repeat 9472%N 60 ++ RESET ++ [10%N].

Definition response_block (w : World) (response : str) : str :=
  rule ++ md_to_ansi w response ++ [10%N] ++ rule.

(** [os.getenv("CHAT_MODEL", "gpt-4o-mini")] *)
Definition chat_model (w : World) : str :=
  match getenv w (lit "CHAT_MODEL") with
  | Some model => model
  | None => lit "gpt-4o-mini"
  end.

(** [handle_send] up to its [await]: [None] when it returned early, else
    the arguments given to [run_in_executor]. *)
Definition handle_send_submit (w : World) : M (option (str * str)) :=
  app <- get ;;
  let prompt := strip (text (input_area app)) in
  match prompt with
  | [] => ret None
  | _ :: _ =>
      perform (SetInputText []) (with_input_area (set_text [])) ;;
      append_output (you_line prompt) ;;
      perform (SetStatus status_thinking) (with_status status_thinking) ;;
      let model := chat_model w in
      ret (Some (prompt, model))
  end.

(** [handle_send] after its [await], resumed with the text [call_chat]
    returned. *)
Definition handle_send_resume (w : World) (response : str) : M unit :=
  append_output (response_block w response) ;;
  perform (SetStatus status_ready) (with_status status_ready) ;;
  perform (Focus InputArea) (with_focus InputArea).

(** [loop.run_in_executor(None, f, ...)]: [f] runs on a worker thread,
    whatever the context of the caller. *)
Definition run_in_executor {A : Type} (f : M A) : M A :=
  fun _ app => f Worker app.

(** [handle_send()], one send from the key press to the end of the task;
    it ends [Raised] when the awaited call raised. *)
Definition handle_send (w : World) : M (outcome unit) :=
  pending <- handle_send_submit w ;;
  match pending with
  | None => ret (Returned tt)
  | Some (prompt, model) =>
      perform (RunInExecutor prompt model) (fun app => app) ;;
      result <- run_in_executor (call_chat w prompt model) ;;
      perform (Resumed result) (fun app => app) ;;
      match result with
      | Raised err => ret (Raised err)
      | Returned response =>
          handle_send_resume w response ;;
          ret (Returned tt)
      end
  end.

(** [submit]: enter starts [handle_send] as a task of the event loop. *)
Definition submit (w : World) : M (outcome unit) :=
  fun _ app => handle_send w EventLoop app.

(** *** ANSI escape lexer *)

Section Lexer.

Variable isdigit : N -> bool.
Variable int : str -> outcome Z.

(** [get_line(lineno)], the closure [lex_document] returns, over the
    [lines] it captured. *)
Definition get_line (lines : list str) (lineno : Z) : outcome (list fragment) :=
  if (len lines <=? lineno)%Z then Returned []
  else
    match getitem lines lineno with
    | Returned line => to_formatted_text_ANSI isdigit int line
    | Raised err => Raised err
    end.

(** [AnsiEscapeLexer.lex_document(document)], given [document.text]. *)
Definition lex_document (document_text : str) : Z -> outcome (list fragment) :=
  get_line (splitlines document_text).

End Lexer.

(** *** The life of the process *)

Definition value_of {A : Type} (r : A * App * list event) : A := fst (fst r).
Definition state_of {A : Type} (r : A * App * list event) : App := snd (fst r).
Definition trace_of {A : Type} (r : A * App * list event) : list event := snd r.

(** What can happen to the state between start and quit: the user edits the
    input pane, presses escape-enter, or presses enter ([handle_send] runs
    to its [await]); a worker thread runs a [call_chat]; a suspended
    [handle_send] is resumed with a response.  Sends may overlap, so the
    three parts of a send are separate steps. *)
Inductive step : App -> App -> Prop :=
| step_edit (app : App) (b : Buffer) :
    step app (with_input_area (fun _ => b) app)
| step_newline (app : App) :
    step app (state_of (newline EventLoop app))
| step_submit (w : World) (app : App) :
    step app (state_of (handle_send_submit w EventLoop app))
| step_call_chat (w : World) (prompt model : str) (app : App) :
    step app (state_of (call_chat w prompt model Worker app))
| step_resume (w : World) (response : str) (app : App) :
    step app (state_of (handle_send_resume w response EventLoop app)).

Inductive reachable : App -> Prop :=
| reachable_initial : reachable initial
| reachable_step (app app' : App) :
    reachable app -> step app app' -> reachable app'.

(** *** Concrete runs *)

(** Python's [isdigit] and [int] on Latin-1 text (CPython 3.11), to run
    the lexer on such text.  Besides the ASCII digits, [isdigit] holds of
    the superscripts two, three and one.  [int], which the lexer gives
    non-empty strings of [isdigit] characters, reads the leading ASCII
    digits: it refuses more than 4300 of them, and it refuses a string they
    do not make up entirely. *)
Definition isdecimal_ascii (c : N) : bool := ((48 <=? c) && (c <=? 57))%N.

Definition isdigit_latin1 (c : N) : bool :=
  (isdecimal_ascii c || (c =? 178) || (c =? 179) || (c =? 185))%N.

Definition ValueError_invalid_literal (s : str) : Exception :=
  Exc (lit "invalid literal for int() with base 10: '" ++ s ++ lit "'").

Definition ValueError_exceeds_limit (digits : nat) : Exception :=
  Exc (lit "Exceeds the limit (4300 digits) for integer string conversion: value has "
       ++ lit (NilZero.string_of_uint (Nat.to_uint digits))
       ++ lit " digits; use sys.set_int_max_str_digits() to increase the limit").

Fixpoint leading_digits (s : str) : str :=
  match s with
  | [] => []
  | c :: s' => if isdecimal_ascii c then c :: leading_digits s' else []
  end.

Definition decimal_value (digits : str) : Z :=
  fold_left (fun acc c => (10 * acc + (Z.of_N c - 48))%Z) digits 0%Z.

Definition int_latin1 (s : str) : outcome Z :=
  let digits := leading_digits s in
  match digits with
  | [] => Raised (ValueError_invalid_literal s)
  | _ :: _ =>
      if 4300 <? length digits then Raised (ValueError_exceeds_limit (length digits))
      else if length digits =? length s then Returned (decimal_value digits)
      else Raised (ValueError_invalid_literal s)
  end.

(** A world whose service answers every request with [reply], with an API
    key set, no [CHAT_MODEL], and a renderer that prints its text and a
    newline. *)
Definition mock_world (reply : outcome str) : World :=
  mkWorld
    (fun name => if str_eqb name (lit "OPENAI_API_KEY") then Some (lit "sk-test") else None)
    (Returned tt)
    (fun _ => Returned tt)
    (fun _ _ => reply)
    (fun text => text ++ [10%N]).

(** The same, on a machine where the [openai] package is not installed. *)
Definition world_without_openai : World :=
  mkWorld (fun _ => None) (Raised (Exc (lit "No module named 'openai'")))
    (fun _ => Returned tt) (fun _ _ => Returned []) (fun text => text ++ [10%N]).

(** The fresh process after the user typed [keys]. *)
Definition typed (keys : str) : App := with_input_area (insert_text keys) initial.

Definition hello : App := typed (lit "Hello").
Definition hi_there : World := mock_world (Returned (lit "Hi there")).
Definition blank : App := typed (lit "   ").

(** The state after two calls of [call_chat] in a row. *)
Definition two_prompts : App :=
  state_of (call_chat hi_there (lit "again") (lit "gpt-4o-mini") Worker
              (state_of (call_chat hi_there (lit "Hello") (lit "gpt-4o-mini")
                           Worker initial))).

(** The state of [hello] when [handle_send] has reached its [await]. *)
Definition hello_submitted : App :=
  state_of (handle_send_submit hi_there EventLoop hello).

(** *** The claims of the specification, as properties of a run *)

(** The OpenAI client could be built: neither the import nor the
    constructor raised. *)
Definition client_ready (w : World) : bool :=
  match import_openai w, OpenAI w (getenv w (lit "OPENAI_API_KEY")) with
  | Returned _, Returned _ => true
  | _, _ => false
  end.

(** What a [call_chat] for [prompt] adds to the list [chat]. *)
Definition appended (w : World) (prompt : str) (chat : list Message) : list Message :=
  if client_ready w then [mkMessage (lit "user") prompt (len chat + 1)] else [].

(** One entry at submit time and one more once the call has resolved. *)
Definition grows_by_two (w : World) (app : App) : Prop :=
  len (chatContent (state_of (handle_send_submit w EventLoop app)))
  = (len (chatContent app) + 1)%Z
  /\ len (chatContent (state_of (handle_send w EventLoop app)))
     = (len (chatContent app) + 2)%Z.

(** The event loop appends to [chatContent] after it has cleared the input
    and echoed the prompt, and before it sets the status and hands the call
    to the executor. *)
Definition appended_while_echoing (t : list event) : Prop :=
  exists m before after,
    t = before ++ (EventLoop, AppendChat m) :: after
    /\ In (EventLoop, SetInputText []) before
    /\ (exists ansi_text, In (EventLoop, InsertOutput ansi_text) before)
    /\ In (EventLoop, SetStatus status_thinking) after
    /\ (exists prompt model, In (EventLoop, RunInExecutor prompt model) after).

(** The effects of [handle_send] up to its [await], for a non-empty
    [prompt]. *)
Definition submit_trace (prompt : str) : list event :=
  [(EventLoop, SetInputText []);
   (EventLoop, InsertOutput (you_line prompt));
   (EventLoop, CursorDownOutput 1000000);
   (EventLoop, Invalidate);
   (EventLoop, SetStatus status_thinking)].

(** The effects of [handle_send] after its [await]. *)
Definition resume_trace (w : World) (response : str) : list event :=
  [(EventLoop, InsertOutput (response_block w response));
   (EventLoop, CursorDownOutput 1000000);
   (EventLoop, Invalidate);
   (EventLoop, SetStatus status_ready);
   (EventLoop, Focus InputArea)].

(** One fragment per line, holding the line. *)
Definition single_fragment (line : str) (fragments : list fragment) : Prop :=
  exists st, fragments = [(st, line)].

(** A line without escape sequences: no escape character, no one-byte CSI
    and no start of a zero-width section. *)
Definition no_escape (line : str) : bool :=
  forallb (fun c => negb ((c =? 27) || (c =? 155) || (c =? 1))%N) line.

(** [Document._line_start_indexes] without the detour through the popped
    last entry: the start of each line. *)
Fixpoint starts (pos : Z) (line_lengths : list Z) : list Z :=
  match line_lengths with
  | [] => []
  | n :: rest => pos :: starts (pos + n + 1)%Z rest
  end.



(** *** Further properties of the code *)

(** A text whose only line boundary, among those of [str.splitlines], is
    the line feed. *)
Definition only_newline_breaks (t : str) : bool :=
  forallb (fun c => negb (is_linebreak c) || (c =? 10)%N) t.

(** A text without any line boundary. *)
Definition no_breaks (t : str) : bool := forallb (fun c => negb (is_linebreak c)) t.

(** What the lexer needs of the Python runtime on the escape sequences the
    program writes: on ASCII characters [isdigit] holds of the ten digits
    only, and [int] converts a string of at most 4300 ASCII digits to its
    decimal value. *)
Definition ascii_runtime (isdigit : N -> bool) (int : str -> outcome Z) : Prop :=
  (forall c, (c < 128)%N -> isdigit c = isdecimal_ascii c)
  /\ (forall s, s <> [] -> forallb isdecimal_ascii s = true -> length s <= 4300 ->
                int s = Returned (decimal_value s)).

(** The user message [call_chat] stores for [prompt] after [chat]. *)
Definition user_message (prompt : str) (chat : list Message) : Message :=
  mkMessage (lit "user") prompt (len chat + 1).

(** A world in which the service fails with a connection error. *)
Definition unreachable_service : World :=
  mock_world (Raised (Exc (lit "Connection error."))).

(** A pane in which the framework has moved the cursor up, into the
    first of two lines. *)
Definition scrolled : App :=
  with_output_area
    (fun _ => mkBuffer (lit "ab" ++ [10%N] ++ lit "cd" ++ [10%N]) 1 None) initial.


(** * Proofs *)

(** ** Strings *)

Lemma lstrip_all_space (s : str) : forallb isspace s = true -> lstrip s = [].
Proof.
  induction s as [|c s IH]; simpl; [reflexivity|].
  intros H. apply andb_prop in H as [Hc Hs]. rewrite Hc. auto.
Qed.

Lemma lstrip_nil_all_space (s : str) : lstrip s = [] -> forallb isspace s = true.
Proof.
  induction s as [|c s IH]; simpl; [reflexivity|].
  destruct (isspace c); [exact IH | discriminate].
Qed.

Lemma lstrip_head (s : str) :
  match lstrip s with [] => True | c :: _ => isspace c = false end.
Proof.
  induction s as [|c s IH]; simpl; [exact I|].
  destruct (isspace c) eqn:E; [exact IH | exact E].
Qed.

Lemma forallb_rev {A : Type} (f : A -> bool) (l : list A) :
  forallb f (rev l) = forallb f l.
Proof.
  induction l as [|a l IH]; simpl; [reflexivity|].
  rewrite forallb_app, IH. simpl. rewrite andb_true_r. apply andb_comm.
Qed.

(** [strip] leaves nothing exactly when the string is empty or all
    whitespace. *)
Lemma strip_nil_iff (s : str) : strip s = [] <-> forallb isspace s = true.
Proof.
  unfold strip, rstrip. split.
  - intros H.
    assert (Hr : lstrip (rev (lstrip s)) = []).
    { rewrite <- (rev_involutive (lstrip (rev (lstrip s)))), H. reflexivity. }
    apply lstrip_nil_all_space in Hr. rewrite forallb_rev in Hr.
    pose proof (lstrip_head s) as Hh.
    destruct (lstrip s) as [|c t] eqn:E.
    + apply lstrip_nil_all_space. exact E.
    + simpl in Hr. rewrite Hh in Hr. discriminate.
  - intros H. rewrite (lstrip_all_space s H). reflexivity.
Qed.

(** ** One send *)

Lemma submit_blank (w : World) (ctx : context) (app : App) :
  strip (text (input_area app)) = [] ->
  handle_send_submit w ctx app = (None, app, []).
Proof.
  intros H. unfold handle_send_submit, bind, get. simpl. rewrite H. reflexivity.
Qed.

Lemma submit_prompt (w : World) (ctx : context) (app : App) :
  strip (text (input_area app)) <> [] ->
  handle_send_submit w ctx app
  = (Some (strip (text (input_area app)), chat_model w),
     with_status status_thinking
       (with_output_area (cursor_down 1000000)
          (with_output_area (insert_text (you_line (strip (text (input_area app)))))
             (with_input_area (set_text []) app))),
     map (fun e => (ctx, snd e)) (submit_trace (strip (text (input_area app))))).
Proof.
  intros H. unfold handle_send_submit, bind, get, append_output, perform, ret.
  destruct (strip (text (input_area app))) as [|c s] eqn:E; [contradiction|].
  reflexivity.
Qed.

Lemma call_chat_try_cases (w : World) (prompt model : str) (ctx : context) (app : App) :
  let m := mkMessage (lit "user") prompt (len (chatContent app) + 1) in
  let app' := with_chatContent (fun chat => chat ++ [m]) app in
  call_chat_try w prompt model ctx app =
    match import_openai w with
    | Raised err => (Raised err, app, [])
    | Returned _ =>
        match OpenAI w (getenv w (lit "OPENAI_API_KEY")) with
        | Raised err => (Raised err, app, [])
        | Returned _ =>
            (create w model (chatContent app'), app',
             [(ctx, AppendChat m); (ctx, Create model (chatContent app'))])
        end
    end.
Proof.
  unfold call_chat_try, try_bind, bind, get, perform, ret. simpl.
  destruct (import_openai w); [|reflexivity].
  destruct (OpenAI w _); [|reflexivity]. simpl.
  destruct (create w model _); reflexivity.
Qed.

(** [call_chat] returns a text, whatever happened in its [try] body. *)
Lemma call_chat_returns (w : World) (prompt model : str) (ctx : context) (app : App) :
  value_of (call_chat w prompt model ctx app)
  = Returned
      match value_of (call_chat_try w prompt model ctx app) with
      | Returned text => text
      | Raised err => lit "OpenAI error: " ++ str_of err
      end
  /\ state_of (call_chat w prompt model ctx app)
     = state_of (call_chat_try w prompt model ctx app)
  /\ trace_of (call_chat w prompt model ctx app)
     = trace_of (call_chat_try w prompt model ctx app).
Proof.
  unfold call_chat, bind, value_of, state_of, trace_of.
  destruct (call_chat_try w prompt model ctx app) as [[r app'] t].
  destruct r; simpl; rewrite app_nil_r; auto.
Qed.

Lemma call_chat_state (w : World) (prompt model : str) (ctx : context) (app : App) :
  state_of (call_chat w prompt model ctx app)
  = with_chatContent (fun chat => chat ++ appended w prompt chat) app.
Proof.
  destruct (call_chat_returns w prompt model ctx app) as (_ & -> & _).
  rewrite call_chat_try_cases. unfold appended, client_ready, state_of.
  destruct app as [chat out inp st fo].
  destruct (import_openai w); simpl;
    [destruct (OpenAI w _); simpl|]; unfold with_chatContent; simpl;
    rewrite ?app_nil_r; reflexivity.
Qed.

Lemma resume_cases (w : World) (response : str) (ctx : context) (app : App) :
  handle_send_resume w response ctx app
  = (tt,
     with_focus InputArea
       (with_status status_ready
          (with_output_area (cursor_down 1000000)
             (with_output_area (insert_text (response_block w response)) app))),
     map (fun e => (ctx, snd e)) (resume_trace w response)).
Proof. reflexivity. Qed.

(** A send with a non-empty prompt is its three parts in sequence: the
    part before the [await], [call_chat] on a worker, and the part after
    the [await] with the text [call_chat] returned. *)
Lemma handle_send_prompt (w : World) (app : App) :
  strip (text (input_area app)) <> [] ->
  let prompt := strip (text (input_area app)) in
  let r1 := handle_send_submit w EventLoop app in
  let r2 := call_chat w prompt (chat_model w) Worker (state_of r1) in
  exists response,
    value_of r2 = Returned response
    /\ handle_send w EventLoop app
       = (Returned tt,
          state_of (handle_send_resume w response EventLoop (state_of r2)),
          trace_of r1
          ++ [(EventLoop, RunInExecutor prompt (chat_model w))]
          ++ trace_of r2
          ++ [(EventLoop, Resumed (Returned response))]
          ++ resume_trace w response).
Proof.
  intros H prompt r1 r2.
  destruct (call_chat_returns w prompt (chat_model w) Worker (state_of r1))
    as (Hv & _ & _).
  fold r2 in Hv. eexists. split; [exact Hv|].
  unfold handle_send, bind at 1.
  subst r2 r1. rewrite (submit_prompt w EventLoop app H) in *.
  fold prompt in Hv |- *.
  unfold state_of, value_of, trace_of in Hv |- *. cbn [fst snd] in Hv |- *.
  set (app1 := with_status _ _) in *.
  unfold bind, perform, run_in_executor.
  destruct (call_chat w prompt (chat_model w) Worker app1) as [[v2 app2] t2].
  cbn [fst snd] in Hv |- *. rewrite Hv.
  rewrite resume_cases. cbn [fst snd ret]. simpl.
  rewrite ?app_nil_r. reflexivity.
Qed.

(** C1, as stated, fails: the user typed [Hello] and the service answers
    [Hi there]; the prompt is non-empty after trimming, yet [chatContent]
    has not grown when [handle_send] reaches its [await] and has grown by
    one entry, not two, when the send is over. *)
Lemma hello_grows_by_one :
  strip (text (input_area hello)) <> []
  /\ ~ grows_by_two hi_there hello
  /\ len (chatContent (state_of (handle_send_submit hi_there EventLoop hello))) = 0%Z
  /\ len (chatContent (state_of (handle_send hi_there EventLoop hello))) = 1%Z.
Proof.
  split; [vm_compute; discriminate|].
  split; [|split; reflexivity].
  intros [H _]. vm_compute in H. discriminate H.
Qed.

(** C1, amended: for every submission whose input is non-empty after
    trimming, [chatContent] is unchanged at submit time (when [handle_send]
    reaches its [await]); the completed send leaves it extended by exactly
    one entry, the user message with the trimmed prompt and the next
    [promptID], appended inside [call_chat], when the OpenAI client could
    be built, and unchanged when it could not.  No assistant message is
    appended. *)
Theorem send_appends_only_the_user_message (w : World) (app : App) :
  strip (text (input_area app)) <> [] ->
  chatContent (state_of (handle_send_submit w EventLoop app)) = chatContent app
  /\ chatContent (state_of (handle_send w EventLoop app))
     = chatContent app
       ++ (if client_ready w
           then [mkMessage (lit "user") (strip (text (input_area app)))
                   (len (chatContent app) + 1)]
           else [])
  /\ (len (chatContent (state_of (handle_send w EventLoop app)))
      = len (chatContent app) + (if client_ready w then 1 else 0))%Z.
Proof.
  intros H.
  assert (E1 : chatContent (state_of (handle_send_submit w EventLoop app))
               = chatContent app).
  { rewrite (submit_prompt w EventLoop app H). reflexivity. }
  assert (E2 : chatContent (state_of (handle_send w EventLoop app))
               = chatContent app
                 ++ appended w (strip (text (input_area app))) (chatContent app)).
  { destruct (handle_send_prompt w app H) as (response & _ & ->).
    unfold state_of at 1. cbn [fst snd]. rewrite resume_cases.
    unfold state_of at 1. cbn [fst snd]. rewrite call_chat_state.
    cbn [with_focus with_status with_output_area with_chatContent chatContent].
    rewrite E1. reflexivity. }
  split; [exact E1|]. unfold appended in E2. split; [exact E2|].
  rewrite E2. unfold len. rewrite length_app.
  destruct (client_ready w); simpl length; lia.
Qed.

Lemma send_appends_only_the_user_message_witness :
  strip (text (input_area hello)) <> []
  /\ chatContent (state_of (handle_send hi_there EventLoop hello))
     = [mkMessage (lit "user") (lit "Hello") 1].
Proof.
  assert (H : strip (text (input_area hello)) <> []) by (vm_compute; discriminate).
  split; [exact H|].
  exact (proj1 (proj2 (send_appends_only_the_user_message hi_there hello H))).
Defined.

(** C2, as stated, fails: in the send of [Hello] no append to [chatContent]
    is performed by the event loop between the echo and the status update;
    the one append of the run is the seventh effect, performed by the
    worker after the status was set (fifth) and the call handed to the
    executor (sixth). *)
Lemma hello_is_appended_by_the_worker :
  strip (text (input_area hello)) <> []
  /\ ~ appended_while_echoing (trace_of (handle_send hi_there EventLoop hello))
  /\ nth_error (trace_of (handle_send hi_there EventLoop hello)) 4
     = Some (EventLoop, SetStatus status_thinking)
  /\ nth_error (trace_of (handle_send hi_there EventLoop hello)) 5
     = Some (EventLoop, RunInExecutor (lit "Hello") (lit "gpt-4o-mini"))
  /\ nth_error (trace_of (handle_send hi_there EventLoop hello)) 6
     = Some (Worker, AppendChat (mkMessage (lit "user") (lit "Hello") 1)).
Proof.
  split; [vm_compute; discriminate|].
  split; [|repeat split; reflexivity].
  intros (m & before & after & E & _).
  assert (Hin : In (EventLoop, AppendChat m)
                  (trace_of (handle_send hi_there EventLoop hello))).
  { rewrite E. apply in_elt. }
  vm_compute in Hin.
  repeat (destruct Hin as [Hin | Hin]; [discriminate Hin|]).
  exact Hin.
Qed.

(** C2, amended: during every send with non-empty trimmed input the event
    loop clears the input pane, appends the echoed prompt to the output
    pane, sets the status to Thinking and hands [call_chat] to the executor,
    in that order; every effect of [call_chat] is performed on the worker;
    the user message is appended to [chatContent] there, after the
    hand-over and before the request is sent and the response rendered,
    when the OpenAI client could be built; and the event loop itself never
    appends to [chatContent]. *)
Theorem user_message_appended_on_worker (w : World) (app : App) :
  strip (text (input_area app)) <> [] ->
  exists worker response,
    trace_of (handle_send w EventLoop app)
    = submit_trace (strip (text (input_area app)))
      ++ [(EventLoop, RunInExecutor (strip (text (input_area app))) (chat_model w))]
      ++ worker
      ++ [(EventLoop, Resumed (Returned response))]
      ++ resume_trace w response
    /\ Forall (fun e => fst e = Worker) worker
    /\ (forall m, ~ In (EventLoop, AppendChat m) (trace_of (handle_send w EventLoop app)))
    /\ (let m := mkMessage (lit "user") (strip (text (input_area app)))
                   (len (chatContent app) + 1) in
        if client_ready w
        then worker = [(Worker, AppendChat m);
                       (Worker, Create (chat_model w) (chatContent app ++ [m]))]
        else worker = []).
Proof.
  intros H.
  destruct (handle_send_prompt w app H) as (response & _ & E).
  set (prompt := strip (text (input_area app))) in *.
  set (r1 := handle_send_submit w EventLoop app) in *.
  destruct (call_chat_returns w prompt (chat_model w) Worker (state_of r1))
    as (_ & _ & Et).
  assert (E1 : trace_of r1 = submit_trace prompt).
  { unfold r1. rewrite (submit_prompt w EventLoop app H). reflexivity. }
  assert (Ec : chatContent (state_of r1) = chatContent app).
  { unfold r1. rewrite (submit_prompt w EventLoop app H). reflexivity. }
  exists (trace_of (call_chat w prompt (chat_model w) Worker (state_of r1))), response.
  set (m := mkMessage (lit "user") prompt (len (chatContent app) + 1)).
  assert (Hw : if client_ready w
               then trace_of (call_chat w prompt (chat_model w) Worker (state_of r1))
                    = [(Worker, AppendChat m);
                       (Worker, Create (chat_model w) (chatContent app ++ [m]))]
               else trace_of (call_chat w prompt (chat_model w) Worker (state_of r1))
                    = []).
  { rewrite Et, call_chat_try_cases.
    cbn [with_chatContent chatContent]. rewrite Ec. fold m.
    unfold client_ready, trace_of.
    destruct (import_openai w); [|reflexivity].
    destruct (OpenAI w _); reflexivity. }
  assert (Hf : Forall (fun e => fst e = Worker)
                 (trace_of (call_chat w prompt (chat_model w) Worker (state_of r1)))).
  { destruct (client_ready w); rewrite Hw; repeat constructor. }
  assert (Ht : trace_of (handle_send w EventLoop app)
               = submit_trace prompt
                 ++ [(EventLoop, RunInExecutor prompt (chat_model w))]
                 ++ trace_of (call_chat w prompt (chat_model w) Worker (state_of r1))
                 ++ [(EventLoop, Resumed (Returned response))]
                 ++ resume_trace w response).
  { rewrite E. unfold trace_of at 1. cbn [snd]. rewrite E1. reflexivity. }
  rewrite Ht.
  split; [reflexivity|]. split; [exact Hf|]. split; [|exact Hw].
  intros m' Hin.
  rewrite !in_app_iff in Hin.
  destruct Hin as [Hin | [Hin | [Hin | [Hin | Hin]]]].
  - simpl in Hin. repeat (destruct Hin as [Hin | Hin]; [discriminate Hin|]). exact Hin.
  - simpl in Hin. destruct Hin as [Hin | []]. discriminate Hin.
  - rewrite Forall_forall in Hf. apply Hf in Hin. discriminate Hin.
  - simpl in Hin. destruct Hin as [Hin | []]. discriminate Hin.
  - simpl in Hin. repeat (destruct Hin as [Hin | Hin]; [discriminate Hin|]). exact Hin.
Qed.

Lemma user_message_appended_on_worker_witness :
  strip (text (input_area hello)) <> []
  /\ forall m, ~ In (EventLoop, AppendChat m)
                 (trace_of (handle_send hi_there EventLoop hello)).
Proof.
  assert (H : strip (text (input_area hello)) <> []) by (vm_compute; discriminate).
  split; [exact H|].
  destruct (user_message_appended_on_worker hi_there hello H)
    as (worker & response & _ & _ & Hnone & _).
  exact Hnone.
Defined.



(** C4: [call_chat] never raises.  For every world, prompt, model and
    state it returns a text: the reply when nothing failed, and otherwise
    ["OpenAI error: "] followed by the message of the exception, whichever
    statement of the [try] body raised it (the import, the construction of
    the client, or the request and the reading of its response). *)
Theorem call_chat_never_raises
  (w : World) (prompt model : str) (ctx : context) (app : App) :
  value_of (call_chat w prompt model ctx app)
  = Returned
      match import_openai w with
      | Raised err => lit "OpenAI error: " ++ str_of err
      | Returned _ =>
          match OpenAI w (getenv w (lit "OPENAI_API_KEY")) with
          | Raised err => lit "OpenAI error: " ++ str_of err
          | Returned _ =>
              match create w model
                      (chatContent app
                       ++ [mkMessage (lit "user") prompt (len (chatContent app) + 1)])
              with
              | Raised err => lit "OpenAI error: " ++ str_of err
              | Returned reply => reply
              end
          end
      end.
Proof.
  destruct (call_chat_returns w prompt model ctx app) as (-> & _ & _).
  rewrite call_chat_try_cases. unfold value_of.
  destruct (import_openai w); [|reflexivity].
  destruct (OpenAI w _); reflexivity.
Qed.

(** C6: for every submission whose input is empty or only whitespace,
    [handle_send] changes nothing and performs no effect: [chatContent],
    both panes, the status label and the focus are as before. *)
Theorem handle_send_blank_is_noop (w : World) (ctx : context) (app : App) :
  forallb isspace (text (input_area app)) = true ->
  handle_send w ctx app = (Returned tt, app, []).
Proof.
  intros H. apply strip_nil_iff in H.
  unfold handle_send, bind. rewrite (submit_blank w ctx app H). reflexivity.
Qed.

Lemma handle_send_blank_is_noop_witness :
  forallb isspace (text (input_area blank)) = true
  /\ handle_send hi_there EventLoop blank = (Returned tt, blank, []).
Proof.
  split; [reflexivity|].
  apply (handle_send_blank_is_noop hi_there EventLoop blank). reflexivity.
Defined.

(** ** The list of messages over the life of the process *)





(** A step leaves [chatContent] as it was or appends one user message
    that takes the next id. *)
Lemma step_chatContent (app app' : App) :
  step app app' ->
  chatContent app' = chatContent app
  \/ exists prompt,
       chatContent app'
       = chatContent app ++ [mkMessage (lit "user") prompt (len (chatContent app) + 1)].
Proof.
  intros [a b | a | w a | w prompt model a | w response a].
  - left. reflexivity.
  - left. reflexivity.
  - left. unfold handle_send_submit, bind, get, append_output, perform, ret, state_of.
    destruct (strip (text (input_area a))); reflexivity.
  - rewrite call_chat_state. unfold appended.
    destruct (client_ready w); simpl.
    + right. exists prompt. reflexivity.
    + left. apply app_nil_r.
  - left. reflexivity.
Qed.




(** ** The lexer *)

Section LexerFacts.

Variable isdigit : N -> bool.
Variable int : str -> outcome Z.

Lemma getitem_in_range {A : Type} (l : list A) (i : Z) :
  (0 <= i < len l)%Z ->
  exists a, nth_error l (Z.to_nat i) = Some a /\ getitem l i = Returned a.
Proof.
  unfold len, getitem. cbv zeta. intros H.
  destruct (Z.ltb_spec i 0); [lia|].
  destruct (Z.ltb_spec i 0); [lia|].
  destruct (nth_error l (Z.to_nat i)) as [a|] eqn:E.
  - exists a. split; reflexivity.
  - apply nth_error_None in E. lia.
Qed.

Lemma getitem_beyond {A : Type} (l : list A) (i : Z) :
  (len l <= i)%Z -> getitem l i = Raised IndexError.
Proof.
  unfold len, getitem. cbv zeta. intros H.
  destruct (Z.ltb_spec i 0); [lia|].
  destruct (Z.ltb_spec i 0); [lia|].
  destruct (nth_error l (Z.to_nat i)) as [a|] eqn:E; [|reflexivity].
  assert (nth_error l (Z.to_nat i) <> None) by congruence.
  apply nth_error_Some in H2. lia.
Qed.

(** Outside an escape sequence every character becomes a fragment of its
    own, in the style in force. *)
Lemma send_all_plain (line : str) (p : parser) :
  no_escape line = true ->
  at_yield p = Top ->
  send_all isdigit int line p
  = Returned (mkParser Top (current_style p) (applied_params p)
                (formatted_text p ++ map (fun c => (current_style p, [c])) line)).
Proof.
  revert p. induction line as [|c line IH]; intros p Hline Hp.
  - simpl. rewrite app_nil_r. destruct p; simpl in *; subst; reflexivity.
  - simpl in Hline. apply andb_prop in Hline as [Hc Hline].
    apply negb_true_iff in Hc. apply orb_false_iff in Hc as [Hc H1].
    apply orb_false_iff in Hc as [H27 H155].
    simpl. unfold send. rewrite Hp, H1. unfold check_csi. rewrite H27, H155.
    rewrite IH; [|exact Hline|reflexivity].
    simpl. rewrite <- app_assoc. reflexivity.
Qed.

Lemma ANSI_plain (line : str) :
  no_escape line = true ->
  to_formatted_text_ANSI isdigit int line
  = Returned (map (fun c => (Plain, [c])) line).
Proof.
  intros H. unfold to_formatted_text_ANSI.
  rewrite (send_all_plain line parser_start H eq_refl). reflexivity.
Qed.

End LexerFacts.

(** C9, as stated, fails: the line [Hi] has no escape sequence, and the
    lexer turns it into two fragments, [H] and [i], not into one fragment
    holding [Hi]. *)
Lemma Hi_is_two_fragments :
  no_escape (lit "Hi") = true
  /\ lex_document isdigit_latin1 int_latin1 (lit "Hi") 0
     = Returned [(Plain, lit "H"); (Plain, lit "i")]
  /\ ~ (exists fragments,
          lex_document isdigit_latin1 int_latin1 (lit "Hi") 0 = Returned fragments
          /\ single_fragment (lit "Hi") fragments).
Proof.
  split; [reflexivity|]. split; [reflexivity|].
  intros (fragments & E & st & Hs). vm_compute in E.
  injection E as <-. discriminate Hs.
Qed.

(** C9, amended: for every line of text containing no escape sequences,
    the lexer's per-line conversion returns one fragment for each
    character of the line, in order and in the default style; joined, the
    texts of the fragments are the input line. *)
Theorem plain_line_is_one_fragment_per_character
  (isdigit : N -> bool) (int : str -> outcome Z) (lines : list str) (lineno : Z)
  (line : str) :
  (0 <= lineno)%Z ->
  nth_error lines (Z.to_nat lineno) = Some line ->
  no_escape line = true ->
  exists fragments,
    get_line isdigit int lines lineno = Returned fragments
    /\ fragments = map (fun c => (Plain, [c])) line
    /\ length fragments = length line
    /\ concat (map snd fragments) = line.
Proof.
  intros H0 Hnth Hline.
  assert (Hlt : (lineno < len lines)%Z).
  { unfold len. assert (nth_error lines (Z.to_nat lineno) <> None) by congruence.
    apply nth_error_Some in H. lia. }
  exists (map (fun c => (Plain, [c])) line).
  split; [|split; [reflexivity|split]].
  - unfold get_line. destruct (Z.leb_spec (len lines) lineno); [lia|].
    destruct (getitem_in_range lines (conj H0 Hlt)) as (a & Ha & ->).
    rewrite Hnth in Ha. injection Ha as <-. apply ANSI_plain. exact Hline.
  - apply length_map.
  - clear. induction line as [|c line IH]; simpl; [reflexivity|]. rewrite IH. reflexivity.
Qed.

Lemma plain_line_is_one_fragment_per_character_witness :
  (0 <= 1)%Z
  /\ nth_error (splitlines (lit "Hello" ++ [10%N] ++ lit "Hi")) (Z.to_nat 1)
     = Some (lit "Hi")
  /\ no_escape (lit "Hi") = true
  /\ exists fragments,
       lex_document isdigit_latin1 int_latin1 (lit "Hello" ++ [10%N] ++ lit "Hi") 1
       = Returned fragments
       /\ fragments = map (fun c => (Plain, [c])) (lit "Hi")
       /\ length fragments = length (lit "Hi")
       /\ concat (map snd fragments) = lit "Hi".
Proof.
  split; [lia|]. split; [reflexivity|]. split; [reflexivity|].
  apply (@plain_line_is_one_fragment_per_character isdigit_latin1 int_latin1
           (splitlines (lit "Hello" ++ [10%N] ++ lit "Hi")) 1 (lit "Hi"));
    [lia | reflexivity | reflexivity].
Defined.

(** C10, as stated, fails: the accessor can raise.  On the one-line
    document whose line is an escape sequence with the superscript two as
    its parameter, line 0 exists and its conversion raises the [ValueError]
    of [int]; and on the empty document the index -1, which the guard lets
    through, raises [IndexError]. *)
Lemma get_line_can_raise :
  lex_document isdigit_latin1 int_latin1 (ESC ++ lit "[" ++ [178%N] ++ lit "m") 0
  = Raised (ValueError_invalid_literal [178%N])
  /\ lex_document isdigit_latin1 int_latin1 [] (-1) = Raised IndexError.
Proof. split; reflexivity. Qed.

(** C10, amended: on every line number from 0 on, the accessor that
    [lex_document] returns raises no out-of-range error: at a line number
    greater than or equal to the number of lines of the document it
    returns the empty fragment list, and below that number it gives what
    the conversion of the line at that index gives, be it fragments or the
    exception the conversion raised. *)
Theorem get_line_guards_the_index
  (isdigit : N -> bool) (int : str -> outcome Z) (document_text : str) (lineno : Z) :
  (0 <= lineno)%Z ->
  lex_document isdigit int document_text lineno
  = if (len (splitlines document_text) <=? lineno)%Z then Returned []
    else to_formatted_text_ANSI isdigit int
           (nth (Z.to_nat lineno) (splitlines document_text) []).
Proof.
  intros H0. unfold lex_document, get_line.
  destruct (Z.leb_spec (len (splitlines document_text)) lineno) as [Hge | Hlt];
    [reflexivity|].
  destruct (getitem_in_range (splitlines document_text) (conj H0 Hlt))
    as (a & Ha & ->).
  rewrite (@nth_error_nth _ _ _ a [] Ha). reflexivity.
Qed.

Lemma get_line_guards_the_index_witness :
  (0 <= 7)%Z
  /\ lex_document isdigit_latin1 int_latin1 (lit "Hello" ++ [10%N] ++ lit "Hi") 7
     = Returned [].
Proof.
  split; [lia|].
  rewrite (@get_line_guards_the_index isdigit_latin1 int_latin1
             (lit "Hello" ++ [10%N] ++ lit "Hi") 7); [reflexivity | lia].
Defined.

(** ** The output pane *)

Lemma len_cons {A : Type} (a : A) (l : list A) : len (a :: l) = (len l + 1)%Z.
Proof. unfold len. simpl length. lia. Qed.

Lemma len_nonneg {A : Type} (l : list A) : (0 <= len l)%Z.
Proof. unfold len. lia. Qed.

Lemma split_newline_nonempty (t : str) : split_newline t <> [].
Proof.
  destruct t as [|c t]; simpl; [discriminate|].
  destruct (c =? 10)%N; [discriminate|].
  destruct (split_newline t); discriminate.
Qed.

Lemma removelast_cumulative (lens : list Z) (pos : Z) :
  removelast (pos :: cumulative pos lens) = starts pos lens.
Proof.
  revert pos. induction lens as [|n lens IH]; intros pos; [reflexivity|].
  simpl cumulative. simpl starts. rewrite <- IH. reflexivity.
Qed.

Lemma line_start_indexes_starts (t : str) :
  line_start_indexes t = starts 0 (map (@len N) (lines t)).
Proof.
  unfold line_start_indexes, lines.
  destruct (split_newline t) as [|l ls] eqn:E; [destruct (split_newline_nonempty t E)|].
  rewrite <- removelast_cumulative.
  assert (H : (1 <? len (0%Z :: cumulative 0 (map (@len N) (l :: ls))))%Z = true).
  { apply Z.ltb_lt. simpl map. simpl cumulative. rewrite !len_cons.
    match goal with |- context [len ?x] => pose proof (len_nonneg x) end. lia. }
  rewrite H. reflexivity.
Qed.

Lemma length_starts (lens : list Z) (pos : Z) : length (starts pos lens) = length lens.
Proof.
  revert pos. induction lens as [|n lens IH]; intros pos; simpl; [reflexivity|].
  rewrite IH. reflexivity.
Qed.

(** The starts of the lines of [t] lie within [t], and the last line
    starts where its length before the end of [t]. *)
Lemma starts_text (t : str) (pos : Z) :
  Forall (fun s => pos <= s <= pos + len t)%Z (starts pos (map (@len N) (split_newline t)))
  /\ forall d d',
       (last (starts pos (map (@len N) (split_newline t))) d
        + len (last (split_newline t) d')
        = pos + len t)%Z.
Proof.
  revert pos. induction t as [|c t IH]; intros pos.
  - simpl. split; [repeat constructor; unfold len; simpl; lia|].
    intros d d'. unfold len. simpl. lia.
  - pose proof (len_nonneg t) as Ht. rewrite len_cons.
    simpl split_newline. destruct (c =? 10)%N.
    + destruct (IH (pos + 1)%Z) as [IHf IHl].
      pose proof (@split_newline_nonempty t) as Hne.
      destruct (split_newline t) as [|l ls] eqn:E; [contradiction|].
      simpl map in *. simpl starts in *.
      change (len (@nil N)) with 0%Z.
      replace (pos + 0 + 1)%Z with (pos + 1)%Z by lia.
      split.
      * constructor; [lia|]. eapply Forall_impl; [|exact IHf].
        simpl. intros s Hs. lia.
      * intros d d'. specialize (IHl d d').
        cbn [last] in IHl |- *. lia.
    + destruct (IH (pos + 1)%Z) as [IHf IHl].
      pose proof (@split_newline_nonempty t) as Hne.
      destruct (split_newline t) as [|l ls] eqn:E; [contradiction|].
      simpl map in *. simpl starts in *. rewrite len_cons.
      replace (pos + (len l + 1) + 1)%Z with (pos + 1 + len l + 1)%Z by lia.
      inversion IHf as [|s0 st Hs0 Hst]; subst.
      split.
      * constructor; [lia|]. eapply Forall_impl; [|exact Hst].
        simpl. intros s Hs. lia.
      * intros d d'. specialize (IHl d d').
        destruct ls as [|l2 ls].
        -- simpl in IHl |- *. rewrite len_cons. lia.
        -- simpl map in *. simpl starts in *. cbn [last] in IHl |- *.
           rewrite IHl. lia.
Qed.


Lemma nth_error_last {A : Type} (l : list A) (d : A) :
  l <> [] -> nth_error l (length l - 1) = Some (last l d).
Proof.
  induction l as [|a l IH]; [contradiction|]. intros _.
  destruct l as [|b l]; [reflexivity|].
  replace (length (a :: b :: l) - 1) with (S (length (b :: l) - 1))
    by (simpl length; lia).
  cbn [nth_error]. rewrite IH by discriminate. reflexivity.
Qed.

Lemma getitem_last {A : Type} (l : list A) (d : A) :
  l <> [] ->
  getitem l (len l - 1) = Returned (last l d)
  /\ getitem l (-1) = Returned (last l d).
Proof.
  intros H. pose proof (nth_error_last d H) as E.
  assert (Hl : (0 < len l)%Z).
  { unfold len. destruct l; [contradiction|]. simpl. lia. }
  unfold getitem. cbv zeta. fold (len l). split.
  - destruct (Z.ltb_spec (len l - 1) 0); [lia|].
    destruct (Z.ltb_spec (len l - 1) 0); [lia|].
    replace (Z.to_nat (len l - 1)) with (length l - 1) by (unfold len; lia).
    rewrite E. reflexivity.
  - change (-1 <? 0)%Z with true. cbv iota.
    destruct (Z.ltb_spec (-1 + len l) 0); [lia|].
    replace (Z.to_nat (-1 + len l)) with (length l - 1) by (unfold len; lia).
    rewrite E. reflexivity.
Qed.


Lemma translate_below_the_last_row (t : str) (row col : Z) :
  (len (lines t) <= row)%Z ->
  translate_row_col_to_index t row col
  = Z.max 0
      (Z.min (len t - len (last (lines t) [])
              + Z.max 0 (Z.min col (len (last (lines t) []))))
         (len t)).
Proof.
  intros Hrow. unfold translate_row_col_to_index.
  rewrite line_start_indexes_starts. unfold lines in *.
  destruct (starts_text t 0) as [_ Hl].
  set (st := starts 0 (map (@len N) (split_newline t))) in *.
  assert (Hlen : len st = len (split_newline t)).
  { unfold len, st. rewrite length_starts, length_map. reflexivity. }
  assert (Hne' : split_newline t <> []) by apply split_newline_nonempty.
  assert (Hne : st <> []).
  { intros E. rewrite E in Hlen. unfold len in Hlen. simpl in Hlen.
    destruct (split_newline t); [contradiction|]. simpl in Hlen. lia. }
  rewrite (getitem_beyond st) by lia. cbv iota.
  destruct (Z.ltb_spec row 0); [pose proof (len_nonneg (split_newline t)); lia|].
  unfold item. rewrite (proj2 (getitem_last 0%Z Hne)).
  rewrite (proj2 (@getitem_last str _ [] Hne')). cbn [fst snd].
  specialize (Hl 0%Z []).
  replace (last st 0%Z) with (len t - len (last (split_newline t) []))%Z by lia.
  reflexivity.
Qed.






Lemma append_output_state (ansi_text : str) (ctx : context) (app : App) :
  state_of (append_output ansi_text ctx app)
  = with_output_area (fun b => cursor_down 1000000 (insert_text ansi_text b)) app.
Proof. reflexivity. Qed.




(** *** From any cursor position

    The framework may move the cursor of the output pane on its own (a
    mouse wheel scrolls it).  Every text [handle_send] appends ends in a
    newline; such an append brings the cursor back to the end of the
    content wherever it was, as long as the pane holds at most [10**6]
    lines. *)

Lemma split_newline_ends_in_newline (t : str) :
  split_newline (t ++ [10%N]) = split_newline t ++ [[]].
Proof.
  induction t as [|c t IH]; [reflexivity|].
  simpl. rewrite IH. destruct (c =? 10)%N; [reflexivity|].
  destruct (split_newline t) as [|l ls] eqn:E; [|reflexivity].
  destruct (split_newline_nonempty t E).
Qed.

Lemma bisect_right_head (a : list Z) (x : Z) :
  (0 <= x)%Z -> (1 <= bisect_right (0%Z :: a) x)%Z.
Proof.
  intros H. cbn [bisect_right]. destruct (Z.ltb_spec x 0); [lia|].
  assert (0 <= bisect_right a x)%Z; [|lia].
  clear. induction a as [|y a IH]; cbn [bisect_right]; [lia|].
  destruct (x <? y)%Z; lia.
Qed.

Lemma cursor_position_row_nonneg (t : str) (cursor : Z) :
  (0 <= cursor)%Z -> (0 <= cursor_position_row t cursor)%Z.
Proof.
  intros H. unfold cursor_position_row, find_line_start_index. cbn [fst].
  rewrite line_start_indexes_starts. unfold lines.
  destruct (split_newline t) as [|l ls] eqn:E; [destruct (split_newline_nonempty t E)|].
  cbn [map starts].
  match goal with
  | |- context [bisect_right (0%Z :: ?a) cursor] =>
      pose proof (bisect_right_head a H)
  end.
  lia.
Qed.

Lemma cursor_down_to_empty_last_line (count : Z) (b : Buffer) (t : str) :
  text b = t ++ [10%N] ->
  (0 <= cursor_position b)%Z ->
  (len (lines (text b)) <= count)%Z ->
  cursor_position (cursor_down count b) = len (text b).
Proof.
  intros Ht Hc Hcount.
  assert (Hlast : last (lines (text b)) [] = []).
  { unfold lines. rewrite Ht, split_newline_ends_in_newline. apply last_last. }
  pose proof (cursor_position_row_nonneg (text b) Hc) as Hrow.
  pose proof (len_nonneg (text b)) as Hlen.
  unfold cursor_down, set_cursor_position, get_cursor_down_position.
  cbn [text cursor_position preferred_column].
  rewrite translate_below_the_last_row by lia.
  rewrite Hlast. change (len (@nil N)) with 0%Z.
  match goal with
  | |- context [Z.max 0 (Z.min ?col 0)] =>
      replace (Z.max 0 (Z.min col 0)) with 0%Z by lia
  end.
  replace (Z.max 0 (Z.min (len (text b) - 0 + 0) (len (text b))))
    with (len (text b)) by lia.
  replace (cursor_position b + (len (text b) - cursor_position b))%Z
    with (len (text b)) by lia.
  destruct (Z.ltb_spec (len (text b)) (len (text b))); [lia|].
  destruct (Z.ltb_spec (len (text b)) 0); [lia | reflexivity].
Qed.

Lemma insert_line_anywhere (data : str) (b : Buffer) :
  (0 <= cursor_position b)%Z ->
  (text b = [] \/ exists t, text b = t ++ [10%N]) ->
  (exists t', text (insert_text (data ++ [10%N]) b) = t' ++ [10%N])
  /\ (0 <= cursor_position (insert_text (data ++ [10%N]) b))%Z.
Proof.
  intros Hc Ht. unfold insert_text, set_document.
  cbn [text cursor_position preferred_column]. split; [|lia].
  unfold slice_to, slice_from.
  set (n := clip (length (text b)) (cursor_position b)).
  destruct (skipn n (text b)) as [|c rest] eqn:E.
  - exists (firstn n (text b) ++ data). rewrite app_nil_r, <- app_assoc. reflexivity.
  - destruct Ht as [Ht | [t Ht]].
    + rewrite Ht, skipn_nil in E. discriminate E.
    + assert (Hn : n <= length t).
      { destruct (Nat.le_gt_cases n (length t)) as [Hle | Hgt]; [exact Hle|].
        rewrite Ht, skipn_app in E.
        rewrite (skipn_all2 (n := n) t) in E by lia.
        replace (n - length t) with (S (n - length t - 1)) in E by lia.
        simpl in E. rewrite skipn_nil in E. discriminate E. }
      exists (firstn n (text b) ++ data ++ [10%N] ++ skipn n t).
      rewrite <- E, Ht, skipn_app.
      replace (n - length t) with 0 by lia. simpl skipn.
      rewrite <- !app_assoc. reflexivity.
Qed.

(** An appended line leaves the cursor at the end of the content, from
    any cursor position. *)
Lemma append_line_from_any_cursor (data : str) (b : Buffer) :
  (0 <= cursor_position b)%Z ->
  (text b = [] \/ exists t, text b = t ++ [10%N]) ->
  (len (lines (text (insert_text (data ++ [10%N]) b))) <= 1000000)%Z ->
  cursor_position (cursor_down 1000000 (insert_text (data ++ [10%N]) b))
  = len (text (cursor_down 1000000 (insert_text (data ++ [10%N]) b)))
  /\ exists t', text (cursor_down 1000000 (insert_text (data ++ [10%N]) b)) = t' ++ [10%N].
Proof.
  intros Hc Ht Hlines.
  destruct (insert_line_anywhere data b Hc Ht) as [[t' Ht'] Hc'].
  assert (Htext : text (cursor_down 1000000 (insert_text (data ++ [10%N]) b))
                  = text (insert_text (data ++ [10%N]) b)) by reflexivity.
  rewrite Htext. split; [|exists t'; exact Ht'].
  apply (@cursor_down_to_empty_last_line 1000000 _ t' Ht' Hc' Hlines).
Qed.




(** ** The scenarios of the specification, run *)

Example splitlines_keeps_no_last_empty_line :
  splitlines (lit "a" ++ [13; 10] ++ lit "b" ++ [10; 10] ++ lit "c" ++ [10])%N
  = [lit "a"; lit "b"; []; lit "c"].
Proof. reflexivity. Qed.

Example strip_trims_both_ends :
  strip ([32; 9] ++ lit "Hi you" ++ [10; 160])%N = lit "Hi you".
Proof. reflexivity. Qed.

(** Input [Hello], service answering [Hi there]: the output pane holds the
    echoed prompt and the rendered block, the status is back to Ready, the
    input pane is empty and focused. *)
Example scenario_hello :
  let app := state_of (handle_send hi_there EventLoop hello) in
  text (output_area app)
  = you_line (lit "Hello") ++ rule ++ lit "Hi there" ++ [10; 10]%N ++ rule
  /\ status app = status_ready
  /\ text (input_area app) = []
  /\ focus app = InputArea.
Proof. repeat split; reflexivity. Qed.

(** A service that raises: the output pane holds the error text in place
    of a reply. *)
Example scenario_service_raises :
  let w := mock_world (Raised (Exc (lit "Connection error."))) in
  let app := state_of (handle_send w EventLoop hello) in
  value_of (call_chat w (lit "Hello") (lit "gpt-4o-mini") Worker hello)
  = Returned (lit "OpenAI error: Connection error.")
  /\ text (output_area app)
     = you_line (lit "Hello") ++ rule ++ lit "OpenAI error: Connection error."
       ++ [10; 10]%N ++ rule.
Proof. split; reflexivity. Qed.

(** Without the [openai] package nothing is appended to [chatContent]. *)
Example scenario_import_fails :
  chatContent (state_of (handle_send world_without_openai EventLoop hello)) = [].
Proof. reflexivity. Qed.

(** A colour sequence changes the style of what follows; a cursor-forward
    sequence becomes spaces. *)
Example lexer_reads_escape_sequences :
  lex_document isdigit_latin1 int_latin1
    (lit "Hi" ++ [10%N] ++ ESC ++ lit "[31mok" ++ ESC ++ lit "[2Cx") 1
  = Returned [(Sgr [[31%Z]], lit "o"); (Sgr [[31%Z]], lit "k");
              (Sgr [[31%Z]], lit " "); (Sgr [[31%Z]], lit " ");
              (Sgr [[31%Z]], lit "x")].
Proof. reflexivity. Qed.

(** A cursor in the first line, moved down by [10**6], lands in the last
    line at the same column. *)
Example cursor_down_stops_at_last_line :
  cursor_position
    (cursor_down 1000000
       (mkBuffer (lit "abc" ++ [10%N] ++ lit "defgh" ++ [10%N] ++ lit "xy") 1 None))
  = 11%Z.
Proof. reflexivity. Qed.

(** What lies between [\001] and [\002] becomes one zero-width fragment;
    a [\001] right after it is an ordinary character. *)
Example lexer_reads_zero_width_escapes :
  lex_document isdigit_latin1 int_latin1 (lit "a" ++ [1%N] ++ lit "zz" ++ [2%N; 1%N] ++ lit "b") 0
  = Returned [(Plain, lit "a"); (ZeroWidthEscape, lit "zz"); (Plain, [1%N]);
              (Plain, lit "b")].
Proof. reflexivity. Qed.

(** Four appends in a row, the third of them empty and the last without a
    final newline: the cursor ends each time at the end of the content. *)
Example appends_keep_the_cursor_at_the_end :
  let step1 := cursor_down 1000000 (insert_text ([10%N] ++ lit "you: hi" ++ [10%N]) empty_buffer) in
  let step2 := cursor_down 1000000 (insert_text (lit "Hi there" ++ [10%N]) step1) in
  let step3 := cursor_down 1000000 (insert_text [] step2) in
  let step4 := cursor_down 1000000 (insert_text (lit "no newline at end") step3) in
  map (fun b => (cursor_position b, len (text b), preferred_column b))
    [step1; step2; step3; step4]
  = [(9, 9, Some 0); (18, 18, Some 0); (18, 18, Some 0); (35, 35, Some 17)]%Z.
Proof. reflexivity. Qed.

(** * Further properties of the code *)

(** ** [call_chat] *)

(** X1: [call_chat] never touches the panes, the status label or the
    focus; of the state it changes [chatContent] only, and only by adding
    at most one entry at its end. *)
Theorem call_chat_changes_only_chatContent
  (w : World) (prompt model : str) (ctx : context) (app : App) :
  output_area (state_of (call_chat w prompt model ctx app)) = output_area app
  /\ input_area (state_of (call_chat w prompt model ctx app)) = input_area app
  /\ status (state_of (call_chat w prompt model ctx app)) = status app
  /\ focus (state_of (call_chat w prompt model ctx app)) = focus app
  /\ exists new,
       chatContent (state_of (call_chat w prompt model ctx app))
       = chatContent app ++ new
       /\ length new <= 1.
Proof.
  rewrite call_chat_state. repeat split.
  exists (appended w prompt (chatContent app)). split; [reflexivity|].
  unfold appended. destruct (client_ready w); simpl; lia.
Qed.

(** X2: when the client was built and the request then fails, [call_chat]
    returns the error text and the user message it appended before the
    request stays in [chatContent]: the failed prompt is part of the
    history that the next request sends. *)
Theorem failed_request_keeps_the_user_message
  (w : World) (prompt model : str) (ctx : context) (app : App) (err : Exception) :
  client_ready w = true ->
  create w model (chatContent app ++ [user_message prompt (chatContent app)])
  = Raised err ->
  value_of (call_chat w prompt model ctx app)
  = Returned (lit "OpenAI error: " ++ str_of err)
  /\ chatContent (state_of (call_chat w prompt model ctx app))
     = chatContent app ++ [user_message prompt (chatContent app)].
Proof.
  intros Hready Hfail. split.
  - destruct (call_chat_returns w prompt model ctx app) as (-> & _ & _).
    rewrite call_chat_try_cases. unfold client_ready in Hready.
    destruct (import_openai w); [|discriminate].
    destruct (OpenAI w _); [|discriminate].
    unfold value_of. cbn [fst with_chatContent chatContent].
    unfold user_message in Hfail. rewrite Hfail. reflexivity.
  - rewrite call_chat_state. unfold appended. rewrite Hready. reflexivity.
Qed.

Lemma failed_request_keeps_the_user_message_witness :
  client_ready unreachable_service = true
  /\ create unreachable_service (lit "gpt-4o-mini")
       (chatContent hello ++ [user_message (lit "Hello") (chatContent hello)])
     = Raised (Exc (lit "Connection error."))
  /\ chatContent
       (state_of (call_chat unreachable_service (lit "Hello") (lit "gpt-4o-mini")
                    Worker hello))
     = [mkMessage (lit "user") (lit "Hello") 1].
Proof.
  split; [reflexivity|]. split; [reflexivity|].
  exact (proj2 (@failed_request_keeps_the_user_message unreachable_service
                  (lit "Hello") (lit "gpt-4o-mini") Worker hello
                  (Exc (lit "Connection error.")) eq_refl eq_refl)).
Defined.

(** X3: two calls of [call_chat] one after the other, in whatever worlds
    with a client, store their prompts in the order the calls ran, with
    consecutive ids, and the second request carries the whole history: all
    earlier messages, the first prompt (whether or not its own request
    succeeded) and the second prompt. *)
Theorem second_call_resends_the_history
  (w1 w2 : World) (p1 p2 model1 model2 : str) (ctx1 ctx2 : context) (app : App) :
  client_ready w1 = true ->
  client_ready w2 = true ->
  chatContent
    (state_of (call_chat w2 p2 model2 ctx2
                 (state_of (call_chat w1 p1 model1 ctx1 app))))
  = chatContent app
    ++ [mkMessage (lit "user") p1 (len (chatContent app) + 1);
        mkMessage (lit "user") p2 (len (chatContent app) + 2)]
  /\ trace_of (call_chat w2 p2 model2 ctx2
                 (state_of (call_chat w1 p1 model1 ctx1 app)))
     = [(ctx2, AppendChat (mkMessage (lit "user") p2 (len (chatContent app) + 2)));
        (ctx2, Create model2
                 (chatContent app
                  ++ [mkMessage (lit "user") p1 (len (chatContent app) + 1);
                      mkMessage (lit "user") p2 (len (chatContent app) + 2)]))].
Proof.
  intros H1 H2.
  assert (E1 : chatContent (state_of (call_chat w1 p1 model1 ctx1 app))
               = chatContent app ++ [mkMessage (lit "user") p1 (len (chatContent app) + 1)]).
  { rewrite call_chat_state. unfold appended. rewrite H1. reflexivity. }
  assert (El : (len (chatContent app ++ [mkMessage (lit "user") p1 (len (chatContent app) + 1)])
                + 1 = len (chatContent app) + 2)%Z).
  { unfold len. rewrite last_length. lia. }
  split.
  - rewrite call_chat_state. unfold appended. rewrite H2.
    cbn [with_chatContent chatContent]. rewrite E1, El, <- app_assoc. reflexivity.
  - destruct (call_chat_returns w2 p2 model2 ctx2
                (state_of (call_chat w1 p1 model1 ctx1 app))) as (_ & _ & ->).
    rewrite call_chat_try_cases. unfold client_ready in H2.
    destruct (import_openai w2); [|discriminate].
    destruct (OpenAI w2 _); [|discriminate].
    unfold trace_of. cbn [snd with_chatContent chatContent].
    rewrite E1, El, <- app_assoc. reflexivity.
Qed.

Lemma second_call_resends_the_history_witness :
  client_ready unreachable_service = true
  /\ client_ready hi_there = true
  /\ chatContent
       (state_of (call_chat hi_there (lit "again") (lit "gpt-4o-mini") Worker
                    (state_of (call_chat unreachable_service (lit "Hello")
                                 (lit "gpt-4o-mini") Worker initial))))
     = [mkMessage (lit "user") (lit "Hello") 1; mkMessage (lit "user") (lit "again") 2].
Proof.
  split; [reflexivity|]. split; [reflexivity|].
  exact (proj1 (@second_call_resends_the_history unreachable_service hi_there
                  (lit "Hello") (lit "again") (lit "gpt-4o-mini") (lit "gpt-4o-mini")
                  Worker Worker initial eq_refl eq_refl)).
Defined.

(** X4: at every moment of the process every entry of [chatContent] has
    the role ["user"]: no reply, no error text and no system message is ever
    stored, so none is ever sent back to the service. *)
Theorem chatContent_holds_user_messages_only (app : App) :
  reachable app ->
  Forall (fun m => role m = lit "user") (chatContent app).
Proof.
  induction 1 as [|app app' _ IH Hstep]; [constructor|].
  destruct (step_chatContent Hstep) as [-> | [prompt ->]]; [exact IH|].
  apply Forall_app. split; [exact IH|]. repeat constructor.
Qed.

Lemma chatContent_holds_user_messages_only_witness :
  reachable two_prompts
  /\ Forall (fun m => role m = lit "user") (chatContent two_prompts).
Proof.
  assert (H : reachable two_prompts).
  { apply (reachable_step
             (reachable_step reachable_initial
                (step_call_chat hi_there (lit "Hello") (lit "gpt-4o-mini") initial))
             (step_call_chat hi_there (lit "again") (lit "gpt-4o-mini") _)). }
  split; [exact H|]. exact (chatContent_holds_user_messages_only H).
Defined.

(** ** [handle_send] and the panes *)










Lemma step_status_focus (app app' : App) :
  step app app' ->
  (status app = status_ready \/ status app = status_thinking) /\ focus app = InputArea ->
  (status app' = status_ready \/ status app' = status_thinking) /\ focus app' = InputArea.
Proof.
  intros [a b | a | w a | w prompt model a | w response a] [Hs Hf].
  - split; [exact Hs | exact Hf].
  - split; [exact Hs | exact Hf].
  - unfold handle_send_submit, bind, get.
    destruct (strip (text (input_area a))) eqn:E; [split; [exact Hs | exact Hf]|].
    split; [right; reflexivity | exact Hf].
  - rewrite call_chat_state. split; [exact Hs | exact Hf].
  - split; [left; reflexivity | reflexivity].
Qed.

(** X7: at every moment of the process the status label reads Ready or
    Thinking, two different texts, and the focus is on the input pane: the
    program never gives the focus to the output pane. *)
Theorem status_and_focus_invariant (app : App) :
  reachable app ->
  (status app = status_ready \/ status app = status_thinking)
  /\ status_ready <> status_thinking
  /\ focus app = InputArea.
Proof.
  intros H.
  assert (Hi : (status app = status_ready \/ status app = status_thinking)
               /\ focus app = InputArea).
  { induction H as [|app app' _ IH Hstep].
    - split; [left; reflexivity | reflexivity].
    - exact (step_status_focus Hstep IH). }
  destruct Hi as [Hs Hf]. split; [exact Hs|]. split; [|exact Hf].
  vm_compute. discriminate.
Qed.

Lemma status_and_focus_invariant_witness :
  reachable hello_submitted
  /\ status hello_submitted = status_thinking
  /\ focus hello_submitted = InputArea.
Proof.
  assert (H : reachable hello_submitted).
  { apply (reachable_step
             (reachable_step reachable_initial
                (step_edit initial (insert_text (lit "Hello") empty_buffer)))
             (step_submit hi_there hello)). }
  split; [exact H|]. split; [reflexivity|].
  exact (proj2 (proj2 (status_and_focus_invariant H))).
Defined.

(** ** The prompt that is sent *)

Lemma lstrip_decompose (s : str) :
  exists spaces, s = spaces ++ lstrip s /\ forallb isspace spaces = true.
Proof.
  induction s as [|c s [sp [E H]]]; simpl.
  - exists []. split; reflexivity.
  - destruct (isspace c) eqn:Ec.
    + exists (c :: sp). simpl. rewrite Ec, H. split; [f_equal; exact E | reflexivity].
    + exists []. split; reflexivity.
Qed.

Lemma rstrip_decompose (s : str) :
  exists spaces, s = rstrip s ++ spaces /\ forallb isspace spaces = true.
Proof.
  unfold rstrip. destruct (lstrip_decompose (rev s)) as (sp & E & H).
  exists (rev sp). split; [|rewrite forallb_rev; exact H].
  rewrite <- rev_app_distr, <- E, rev_involutive. reflexivity.
Qed.

Lemma rstrip_last (s : str) (front : str) (c : N) :
  rstrip s = front ++ [c] -> isspace c = false.
Proof.
  unfold rstrip. intros E. pose proof (lstrip_head (rev s)) as H.
  assert (E' : lstrip (rev s) = c :: rev front).
  { rewrite <- (rev_involutive (lstrip (rev s))), E, rev_app_distr. reflexivity. }
  rewrite E' in H. exact H.
Qed.

(** X8: the prompt [handle_send] echoes, stores and sends is the input
    with the whitespace at both ends taken off and everything between kept
    as typed: the input is whitespace, then the prompt, then whitespace, and
    the prompt is non-empty and neither begins nor ends with whitespace; the
    model that goes with it is [CHAT_MODEL] or its default. *)
Theorem submitted_prompt_is_the_trimmed_input
  (w : World) (ctx : context) (app : App) (prompt model : str) :
  value_of (handle_send_submit w ctx app) = Some (prompt, model) ->
  model = chat_model w
  /\ (exists before after,
        text (input_area app) = before ++ prompt ++ after
        /\ forallb isspace before = true
        /\ forallb isspace after = true)
  /\ (exists c rest, prompt = c :: rest /\ isspace c = false)
  /\ (exists front c, prompt = front ++ [c] /\ isspace c = false).
Proof.
  intros Hv.
  destruct (strip (text (input_area app))) as [|c0 s0] eqn:E.
  { rewrite (submit_blank w ctx app E) in Hv. discriminate Hv. }
  assert (Hne : strip (text (input_area app)) <> []) by (rewrite E; discriminate).
  rewrite (submit_prompt w ctx app Hne) in Hv. unfold value_of in Hv. cbn [fst] in Hv.
  injection Hv as Hp Hm. rewrite E in Hp. subst prompt model.
  split; [reflexivity|].
  destruct (lstrip_decompose (text (input_area app))) as (before & Eb & Hb).
  destruct (rstrip_decompose (lstrip (text (input_area app)))) as (after & Ea & Ha).
  fold (strip (text (input_area app))) in Ea. rewrite E in Ea.
  split; [|split].
  - exists before, after. split; [|split; assumption].
    rewrite Eb at 1. rewrite Ea at 1. reflexivity.
  - exists c0, s0. split; [reflexivity|].
    pose proof (lstrip_head (text (input_area app))) as Hh.
    rewrite Ea in Hh. exact Hh.
  - destruct (exists_last (l := c0 :: s0)) as (front & c & El); [discriminate|].
    exists front, c. split; [exact El|].
    apply (rstrip_last (lstrip (text (input_area app))) front).
    fold (strip (text (input_area app))). rewrite E. exact El.
Qed.

Lemma submitted_prompt_is_the_trimmed_input_witness :
  value_of (handle_send_submit hi_there EventLoop (typed (lit "  Hello you  ")))
  = Some (lit "Hello you", lit "gpt-4o-mini")
  /\ exists before after,
       text (input_area (typed (lit "  Hello you  ")))
       = before ++ lit "Hello you" ++ after
       /\ forallb isspace before = true
       /\ forallb isspace after = true.
Proof.
  split; [reflexivity|].
  exact (proj1 (proj2 (@submitted_prompt_is_the_trimmed_input hi_there EventLoop
                         (typed (lit "  Hello you  ")) (lit "Hello you")
                         (lit "gpt-4o-mini") eq_refl))).
Defined.

(** ** Key bindings *)

(** X9: escape-enter puts one line feed into the input pane at the cursor
    and moves the cursor behind it; it changes nothing else (no message, no
    output, no status, no focus) and starts no send. *)
Theorem newline_inserts_a_line_feed (ctx : context) (app : App) :
  (0 <= cursor_position (input_area app) <= len (text (input_area app)))%Z ->
  text (input_area (state_of (newline ctx app)))
  = firstn (Z.to_nat (cursor_position (input_area app))) (text (input_area app))
    ++ [10%N]
    ++ skipn (Z.to_nat (cursor_position (input_area app))) (text (input_area app))
  /\ cursor_position (input_area (state_of (newline ctx app)))
     = (cursor_position (input_area app) + 1)%Z
  /\ chatContent (state_of (newline ctx app)) = chatContent app
  /\ output_area (state_of (newline ctx app)) = output_area app
  /\ status (state_of (newline ctx app)) = status app
  /\ focus (state_of (newline ctx app)) = focus app
  /\ trace_of (newline ctx app) = [].
Proof.
  intros Hc. unfold newline, state_of, trace_of.
  cbn [fst snd with_input_area input_area chatContent output_area status focus].
  unfold insert_text, set_document, slice_to, slice_from, clip, len in *.
  cbn [text cursor_position].
  destruct (Z.ltb_spec (cursor_position (input_area app)) 0); [lia|].
  rewrite Z.min_r by lia.
  repeat split. simpl length. lia.
Qed.

Lemma newline_inserts_a_line_feed_witness :
  (0 <= cursor_position (input_area hello) <= len (text (input_area hello)))%Z
  /\ text (input_area (state_of (newline EventLoop hello))) = lit "Hello" ++ [10%N]
  /\ cursor_position (input_area (state_of (newline EventLoop hello))) = 6%Z.
Proof.
  assert (H : (0 <= cursor_position (input_area hello)
               <= len (text (input_area hello)))%Z) by (vm_compute; split; discriminate).
  split; [exact H|]. split; [reflexivity|].
  exact (proj1 (proj2 (newline_inserts_a_line_feed EventLoop hello H))).
Defined.

(** ** The lexer *)

(** X12: below zero the accessor follows Python's indexing, which its
    guard does not restrict: a line number from [-len(lines)] to -1 gives
    the conversion of the line counted from the end, and a smaller one
    raises [IndexError]. *)
Theorem get_line_negative_index
  (isdigit : N -> bool) (int : str -> outcome Z) (lines : list str) (lineno : Z) :
  (lineno < 0)%Z ->
  get_line isdigit int lines lineno
  = if (- len lines <=? lineno)%Z
    then to_formatted_text_ANSI isdigit int
           (nth (Z.to_nat (lineno + len lines)) lines [])
    else Raised IndexError.
Proof.
  intros Hneg. unfold get_line. pose proof (len_nonneg lines) as Hl.
  destruct (Z.leb_spec (len lines) lineno); [lia|].
  unfold getitem. cbv zeta. fold (len lines).
  destruct (Z.ltb_spec lineno 0); [|lia].
  destruct (Z.leb_spec (- len lines) lineno).
  - destruct (Z.ltb_spec (lineno + len lines) 0); [lia|].
    destruct (nth_error lines (Z.to_nat (lineno + len lines))) as [line|] eqn:E.
    + rewrite (@nth_error_nth _ _ _ line [] E). reflexivity.
    + apply nth_error_None in E. unfold len in *. lia.
  - destruct (Z.ltb_spec (lineno + len lines) 0); [reflexivity | lia].
Qed.

Lemma get_line_negative_index_witness :
  (-1 < 0)%Z
  /\ get_line isdigit_latin1 int_latin1 [lit "a"; lit "b"] (-1)
     = Returned [(Plain, lit "b")].
Proof.
  split; [lia|].
  rewrite (@get_line_negative_index isdigit_latin1 int_latin1 [lit "a"; lit "b"] (-1));
    [reflexivity | lia].
Defined.

(** *** The lexer's lines and the pane's rows

    The pane counts its rows with [text.split("\n")] and asks the lexer
    for them by number; the lexer counts its lines with
    [text.splitlines()]. *)

Lemma splitlines_nonempty (c : N) (t : str) : splitlines (c :: t) <> [].
Proof.
  simpl. destruct (is_linebreak c); [discriminate|].
  destruct (splitlines t); discriminate.
Qed.

Lemma splitlines_line_feed (t : str) : splitlines (10%N :: t) = [] :: splitlines t.
Proof. destruct t; reflexivity. Qed.

(** X10: when the line feed is the only line boundary in the text, the
    lexer's lines are the pane's rows, number by number; the pane has one
    row more, an empty last one, exactly when the text is empty or ends in
    a line feed, and for that row the accessor returns no fragments. *)
Theorem lexer_lines_are_the_pane_rows
  (isdigit : N -> bool) (int : str -> outcome Z) (t : str) :
  only_newline_breaks t = true ->
  lines t = splitlines t ++ (if (last t 10 =? 10)%N then [[]] else [])
  /\ (forall row line, nth_error (splitlines t) row = Some line ->
                       nth_error (lines t) row = Some line)
  /\ lex_document isdigit int t (len (splitlines t)) = Returned [].
Proof.
  intros H.
  assert (E : lines t = splitlines t ++ (if (last t 10 =? 10)%N then [[]] else [])).
  { unfold lines. induction t as [|c t IH]; [reflexivity|].
    cbn [only_newline_breaks forallb] in H. apply andb_prop in H as [Hc Ht].
    specialize (IH Ht). cbn [split_newline].
    destruct (N.eqb_spec c 10) as [-> | Hne].
    - rewrite splitlines_line_feed, IH. destruct t; reflexivity.
    - rewrite orb_false_r in Hc. apply negb_true_iff in Hc.
      cbn [splitlines]. rewrite Hc, IH.
      destruct t as [|c' t'].
      + simpl. destruct (N.eqb_spec c 10); [contradiction | reflexivity].
      + pose proof (splitlines_nonempty c' t') as Hs.
        destruct (splitlines (c' :: t')) as [|l ls]; [contradiction|].
        reflexivity. }
  split; [exact E|]. split.
  - intros row line Hrow. rewrite E. rewrite nth_error_app1; [exact Hrow|].
    apply nth_error_Some. congruence.
  - unfold lex_document, get_line. rewrite Z.leb_refl. reflexivity.
Qed.

Lemma lexer_lines_are_the_pane_rows_witness :
  only_newline_breaks (text (output_area (state_of (handle_send hi_there EventLoop hello))))
  = true
  /\ lines (text (output_area (state_of (handle_send hi_there EventLoop hello))))
     = splitlines (text (output_area (state_of (handle_send hi_there EventLoop hello))))
       ++ [[]].
Proof.
  split; [reflexivity|].
  exact (proj1 (@lexer_lines_are_the_pane_rows isdigit_latin1 int_latin1
                  (text (output_area (state_of (handle_send hi_there EventLoop hello))))
                  eq_refl)).
Defined.

Lemma no_breaks_head (c : N) (t : str) :
  no_breaks (c :: t) = true ->
  is_linebreak c = false /\ (c =? 10)%N = false /\ no_breaks t = true.
Proof.
  cbn [no_breaks forallb]. intros H. apply andb_prop in H as [Hc Ht].
  apply negb_true_iff in Hc. split; [exact Hc|]. split; [|exact Ht].
  destruct (N.eqb_spec c 10) as [-> | _]; [discriminate Hc | reflexivity].
Qed.

Lemma split_newline_no_breaks (x rest : str) :
  no_breaks x = true ->
  split_newline (x ++ 10%N :: rest) = x :: split_newline rest.
Proof.
  induction x as [|c x IH]; intros H; [reflexivity|].
  destruct (@no_breaks_head c x H) as (_ & Hc & Hx).
  cbn [app split_newline]. rewrite Hc, (IH Hx). reflexivity.
Qed.

Lemma split_newline_one_row (x : str) :
  (forall c, In c x -> c <> 10%N) -> split_newline x = [x].
Proof.
  induction x as [|c x IH]; intros H; [reflexivity|].
  cbn [split_newline].
  destruct (N.eqb_spec c 10) as [E | _]; [destruct (H c (or_introl eq_refl) E)|].
  rewrite IH; [reflexivity|]. intros d Hd. apply H. right. exact Hd.
Qed.

Lemma splitlines_no_breaks (x rest : str) (sep : N) :
  no_breaks x = true ->
  is_linebreak sep = true ->
  splitlines (x ++ sep :: rest)
  = x :: match rest with
         | c' :: rest' =>
             if ((sep =? 13) && (c' =? 10))%N then splitlines rest'
             else splitlines rest
         | [] => []
         end.
Proof.
  intros Hx Hsep. induction x as [|c x IH].
  - cbn [app splitlines]. rewrite Hsep. reflexivity.
  - destruct (@no_breaks_head c x Hx) as (Hc & _ & Hx').
    cbn [app splitlines]. rewrite Hc, (IH Hx'). reflexivity.
Qed.

Lemma no_breaks_not_line_feed (x : str) :
  no_breaks x = true -> forall c, In c x -> c <> 10%N.
Proof.
  induction x as [|d x IH]; intros H c Hin; [destruct Hin|].
  destruct (@no_breaks_head d x H) as (_ & Hd & Hx).
  destruct Hin as [<- | Hin]; [|exact (IH Hx c Hin)].
  intros E. rewrite E in Hd. discriminate Hd.
Qed.

(** X11: any other line boundary of [splitlines] (a carriage return, a
    form feed, a line separator, ...) inside a row of the pane shifts the
    lexer's lines against the pane's rows: with such a character between
    [a] and a non-empty [b] on the first row and [c] on the second, the
    pane's row 1 is [c], and what the accessor converts for line number 1
    is [b]. *)
Theorem other_line_boundary_shifts_the_lines (a b c : str) (sep : N) :
  no_breaks a = true ->
  no_breaks b = true ->
  no_breaks c = true ->
  b <> [] ->
  is_linebreak sep = true ->
  sep <> 10%N ->
  nth_error (lines (a ++ [sep] ++ b ++ [10%N] ++ c)) 1 = Some c
  /\ nth_error (splitlines (a ++ [sep] ++ b ++ [10%N] ++ c)) 1 = Some b.
Proof.
  intros Ha Hb Hc Hne Hsep Hsep10. split.
  - unfold lines.
    replace (a ++ [sep] ++ b ++ [10%N] ++ c) with ((a ++ [sep] ++ b) ++ 10%N :: c)
      by (rewrite <- !app_assoc; reflexivity).
    assert (Hrow : forall d, In d (a ++ [sep] ++ b) -> d <> 10%N).
    { intros d Hd. rewrite !in_app_iff in Hd.
      destruct Hd as [Hd | [[<- | []] | Hd]];
        [exact (@no_breaks_not_line_feed a Ha d Hd) | exact Hsep10
         | exact (@no_breaks_not_line_feed b Hb d Hd)]. }
    assert (E : split_newline ((a ++ [sep] ++ b) ++ 10%N :: c)
                = (a ++ [sep] ++ b) :: split_newline c).
    { set (x := a ++ [sep] ++ b) in *. clearbody x.
      induction x as [|d x IH]; [reflexivity|].
      cbn [app split_newline].
      destruct (N.eqb_spec d 10) as [E | _]; [destruct (Hrow d (or_introl eq_refl) E)|].
      rewrite IH; [reflexivity|]. intros e He. apply Hrow. right. exact He. }
    rewrite E, (@split_newline_one_row c (@no_breaks_not_line_feed c Hc)). reflexivity.
  - cbn [app]. rewrite (@splitlines_no_breaks a (b ++ 10%N :: c) sep Ha Hsep).
    destruct b as [|b0 b']; [contradiction|].
    destruct (@no_breaks_head b0 b' Hb) as (_ & Hb10 & _).
    cbn [app]. rewrite Hb10, andb_false_r.
    change (b0 :: b' ++ 10%N :: c) with ((b0 :: b') ++ 10%N :: c).
    rewrite (@splitlines_no_breaks (b0 :: b') c 10%N Hb eq_refl). reflexivity.
Qed.

Lemma other_line_boundary_shifts_the_lines_witness :
  no_breaks (lit "a") = true
  /\ no_breaks (lit "b") = true
  /\ no_breaks (lit "c") = true
  /\ lit "b" <> []
  /\ is_linebreak 13 = true
  /\ 13%N <> 10%N
  /\ nth_error (lines (lit "a" ++ [13%N] ++ lit "b" ++ [10%N] ++ lit "c")) 1
     = Some (lit "c")
  /\ nth_error (splitlines (lit "a" ++ [13%N] ++ lit "b" ++ [10%N] ++ lit "c")) 1
     = Some (lit "b").
Proof.
  repeat (split; [first [reflexivity | discriminate]|]).
  apply (@other_line_boundary_shifts_the_lines (lit "a") (lit "b") (lit "c") 13%N);
    first [reflexivity | discriminate].
Defined.

(** *** The echoed prompt, as the lexer reads it *)

Lemma leading_digits_all (s : str) :
  forallb isdecimal_ascii s = true -> leading_digits s = s.
Proof.
  induction s as [|c s IH]; [reflexivity|].
  cbn [forallb leading_digits]. intros H. apply andb_prop in H as [Hc Hs].
  rewrite Hc, (IH Hs). reflexivity.
Qed.

(** CPython's [isdigit] and [int], as modelled on Latin-1 text, are such a
    runtime. *)
Lemma latin1_is_ascii_runtime : ascii_runtime isdigit_latin1 int_latin1.
Proof.
  split.
  - intros c Hc. unfold isdigit_latin1.
    destruct (N.eqb_spec c 178); [lia|].
    destruct (N.eqb_spec c 179); [lia|].
    destruct (N.eqb_spec c 185); [lia|].
    rewrite !orb_false_r. reflexivity.
  - intros s Hne Hs Hlen. unfold int_latin1. rewrite (leading_digits_all s Hs).
    destruct s as [|c s]; [contradiction|].
    destruct (Nat.ltb_spec 4300 (length (c :: s))); [lia|].
    rewrite Nat.eqb_refl. reflexivity.
Qed.

Section EchoedPrompt.

Variable isdigit : N -> bool.
Variable int : str -> outcome Z.
Hypothesis runtime : ascii_runtime isdigit int.

Lemma send_all_app (x y : str) (p : parser) :
  send_all isdigit int (x ++ y) p
  = match send_all isdigit int x p with
    | Returned p' => send_all isdigit int y p'
    | Raised err => Raised err
    end.
Proof.
  revert p. induction x as [|c x IH]; intros p; [reflexivity|].
  cbn [app send_all]. destruct (send isdigit int c p); [apply IH | reflexivity].
Qed.

(** A digit of an escape sequence joins the number being read. *)
Lemma send_digit (c : N) (p : parser) (current : str) (params : list Z) :
  at_yield p = Csi current params ->
  (c < 128)%N ->
  isdecimal_ascii c = true ->
  send isdigit int c p
  = Returned (mkParser (Csi (current ++ [c]) params) (current_style p)
                (applied_params p) (formatted_text p)).
Proof.
  intros Hp Hc Hd. unfold send. rewrite Hp, (proj1 runtime c Hc), Hd. reflexivity.
Qed.

(** A semicolon closes the number and opens the next one. *)
Lemma send_semicolon (p : parser) (current : str) (params : list Z) :
  at_yield p = Csi current params ->
  current <> [] ->
  forallb isdecimal_ascii current = true ->
  length current <= 4300 ->
  send isdigit int 59%N p
  = Returned (mkParser (Csi [] (params ++ [Z.min (decimal_value current) 9999]))
                (current_style p) (applied_params p) (formatted_text p)).
Proof.
  intros Hp Hne Hd Hlen. unfold send.
  rewrite Hp, (proj1 runtime 59%N eq_refl), (proj2 runtime current Hne Hd Hlen).
  destruct current; [contradiction | reflexivity].
Qed.

(** The final [m] closes the number and selects the style. *)
Lemma send_m (p : parser) (current : str) (params : list Z) :
  at_yield p = Csi current params ->
  current <> [] ->
  forallb isdecimal_ascii current = true ->
  length current <= 4300 ->
  send isdigit int 109%N p
  = Returned (mkParser Top
                (Sgr (applied_params p
                      ++ [params ++ [Z.min (decimal_value current) 9999]]))
                (applied_params p ++ [params ++ [Z.min (decimal_value current) 9999]])
                (formatted_text p)).
Proof.
  intros Hp Hne Hd Hlen. unfold send.
  rewrite Hp, (proj1 runtime 109%N eq_refl), (proj2 runtime current Hne Hd Hlen).
  destruct current; [contradiction | reflexivity].
Qed.

(** The escape character and the bracket after it open a sequence. *)
Lemma send_escape (p : parser) :
  at_yield p = Top ->
  send isdigit int 27%N p
  = Returned (mkParser SawEsc (current_style p) (applied_params p) (formatted_text p)).
Proof. intros Hp. unfold send. rewrite Hp. reflexivity. Qed.

Lemma send_bracket (p : parser) :
  at_yield p = SawEsc ->
  send isdigit int 91%N p
  = Returned (mkParser (Csi [] []) (current_style p) (applied_params p)
                (formatted_text p)).
Proof. intros Hp. unfold send. rewrite Hp. reflexivity. Qed.

Ltac parser_step :=
  cbn [send_all];
  first
    [ erewrite send_digit; [ | reflexivity | reflexivity | reflexivity ]
    | erewrite send_semicolon;
      [ | reflexivity | discriminate | reflexivity | simpl; lia ]
    | erewrite send_m; [ | reflexivity | discriminate | reflexivity | simpl; lia ]
    | erewrite send_escape; [ | reflexivity ]
    | erewrite send_bracket; [ | reflexivity ] ];
  cbn [app at_yield current_style applied_params formatted_text].

(** Outside an escape sequence, [NEON_GREEN] selects a style and produces
    no text. *)
Lemma send_all_NEON_GREEN (st : style) (applied : list (list Z)) (frags : list fragment) :
  send_all isdigit int NEON_GREEN (mkParser Top st applied frags)
  = Returned (mkParser Top (Sgr (applied ++ [[38; 2; 0; 255; 140]%Z]))
                (applied ++ [[38; 2; 0; 255; 140]%Z]) frags).
Proof.
  unfold NEON_GREEN, ESC, lit. cbn [list_ascii_of_string map N_of_ascii app].
  cbv [N_of_digits N.add N.mul Pos.add Pos.mul Pos.succ].
  do 17 parser_step. reflexivity.
Qed.

(** So does [RESET]. *)
Lemma send_all_RESET (st : style) (applied : list (list Z)) (frags : list fragment) :
  send_all isdigit int RESET (mkParser Top st applied frags)
  = Returned (mkParser Top (Sgr (applied ++ [[0%Z]])) (applied ++ [[0%Z]]) frags).
Proof.
  unfold RESET, ESC, lit. cbn [list_ascii_of_string map N_of_ascii app].
  cbv [N_of_digits N.add N.mul Pos.add Pos.mul Pos.succ].
  do 4 parser_step. reflexivity.
Qed.

(** X13: the line [handle_send] echoes is read back by the lexer as the
    label and the prompt, with the escape sequences gone from the text: for
    a prompt without escape characters and line boundaries, line 0 of the
    echoed text is empty and line 1 is one fragment per character, the
    marker and [[You]:] in the style selected by [NEON_GREEN], then a space
    and the prompt in the style left by [RESET]. *)
Theorem echoed_prompt_is_lexed_as_label_and_prompt (prompt : str) :
  no_escape prompt = true ->
  no_breaks prompt = true ->
  lex_document isdigit int (you_line prompt) 0 = Returned []
  /\ lex_document isdigit int (you_line prompt) 1
     = Returned
         (map (fun c => (Sgr [[38; 2; 0; 255; 140]%Z], [c]))
            ([10148%N] ++ lit " [You]:")
          ++ map (fun c => (Sgr [[38; 2; 0; 255; 140]%Z; [0%Z]], [c]))
               (lit " " ++ prompt)).
Proof.
  intros Hesc Hbr.
  set (body := NEON_GREEN ++ [10148%N] ++ lit " [You]:" ++ RESET ++ lit " " ++ prompt).
  assert (Ey : you_line prompt = 10%N :: body ++ [10%N]).
  { unfold you_line, body. cbn [app]. rewrite <- !app_assoc. reflexivity. }
  assert (Hbody : no_breaks body = true).
  { unfold body, no_breaks. rewrite !forallb_app. fold (no_breaks prompt).
    rewrite Hbr. reflexivity. }
  assert (El : splitlines (you_line prompt) = [[]; body]).
  { rewrite Ey, splitlines_line_feed.
    rewrite (@splitlines_no_breaks body [] 10%N Hbody eq_refl). reflexivity. }
  unfold lex_document. rewrite El. split; [reflexivity|].
  assert (Eg : forall line, get_line isdigit int [[]; line] 1
                            = to_formatted_text_ANSI isdigit int line)
    by reflexivity.
  rewrite Eg. unfold to_formatted_text_ANSI, body, parser_start.
  assert (Hp : no_escape (lit " " ++ prompt) = true).
  { unfold no_escape. rewrite forallb_app. fold (no_escape prompt). rewrite Hesc.
    reflexivity. }
  rewrite send_all_app, send_all_NEON_GREEN. cbv iota beta.
  rewrite send_all_app.
  erewrite (@send_all_plain isdigit int [10148%N]); [|reflexivity|reflexivity].
  cbv iota beta. rewrite send_all_app.
  erewrite (@send_all_plain isdigit int (lit " [You]:")); [|reflexivity|reflexivity].
  cbv iota beta. cbn [current_style applied_params formatted_text].
  rewrite send_all_app, send_all_RESET. cbv iota beta.
  erewrite (@send_all_plain isdigit int (lit " " ++ prompt)); [|exact Hp|reflexivity].
  cbn [current_style applied_params formatted_text app map]. reflexivity.
Qed.

End EchoedPrompt.

Lemma echoed_prompt_is_lexed_as_label_and_prompt_witness :
  ascii_runtime isdigit_latin1 int_latin1
  /\ no_escape (lit "Hello") = true
  /\ no_breaks (lit "Hello") = true
  /\ lex_document isdigit_latin1 int_latin1 (you_line (lit "Hello")) 1
     = Returned
         (map (fun c => (Sgr [[38; 2; 0; 255; 140]%Z], [c]))
            ([10148%N] ++ lit " [You]:")
          ++ map (fun c => (Sgr [[38; 2; 0; 255; 140]%Z; [0%Z]], [c]))
               (lit " " ++ lit "Hello")).
Proof.
  split; [exact latin1_is_ascii_runtime|]. split; [reflexivity|]. split; [reflexivity|].
  exact (proj2 (@echoed_prompt_is_lexed_as_label_and_prompt isdigit_latin1 int_latin1
                  latin1_is_ascii_runtime (lit "Hello") eq_refl eq_refl)).
Defined.

(** ** Overlapping sends *)




(** ** [append_output], wherever the cursor is *)

(** X15: [append_output] inserts at the cursor of the output pane, not at
    the end of its content: with the cursor inside the content, the new
    text lands between what is before the cursor and what is after it.
    Whatever the cursor, the rest of the state is untouched and the three
    effects are the insertion, the move down by [10**6] and the redraw. *)
Theorem append_output_inserts_at_the_cursor
  (ansi_text : str) (ctx : context) (app : App) :
  (0 <= cursor_position (output_area app) <= len (text (output_area app)))%Z ->
  text (output_area (state_of (append_output ansi_text ctx app)))
  = firstn (Z.to_nat (cursor_position (output_area app))) (text (output_area app))
    ++ ansi_text
    ++ skipn (Z.to_nat (cursor_position (output_area app))) (text (output_area app))
  /\ chatContent (state_of (append_output ansi_text ctx app)) = chatContent app
  /\ input_area (state_of (append_output ansi_text ctx app)) = input_area app
  /\ status (state_of (append_output ansi_text ctx app)) = status app
  /\ focus (state_of (append_output ansi_text ctx app)) = focus app
  /\ trace_of (append_output ansi_text ctx app)
     = [(ctx, InsertOutput ansi_text); (ctx, CursorDownOutput 1000000);
        (ctx, Invalidate)].
Proof.
  intros Hc. rewrite append_output_state.
  cbn [with_output_area output_area chatContent input_area status focus].
  split; [|repeat split].
  change (text (cursor_down 1000000 (insert_text ansi_text (output_area app))))
    with (text (insert_text ansi_text (output_area app))).
  unfold insert_text, set_document, slice_to, slice_from, clip, len in *.
  cbn [text].
  destruct (Z.ltb_spec (cursor_position (output_area app)) 0); [lia|].
  rewrite Z.min_r by lia. reflexivity.
Qed.

Lemma append_output_inserts_at_the_cursor_witness :
  (0 <= cursor_position (output_area scrolled) <= len (text (output_area scrolled)))%Z
  /\ text (output_area (state_of (append_output (lit "X" ++ [10%N]) EventLoop scrolled)))
     = lit "a" ++ lit "X" ++ [10%N] ++ lit "b" ++ [10%N] ++ lit "cd" ++ [10%N].
Proof.
  assert (H : (0 <= cursor_position (output_area scrolled)
               <= len (text (output_area scrolled)))%Z)
    by (vm_compute; split; discriminate).
  split; [exact H|].
  rewrite (proj1 (append_output_inserts_at_the_cursor (lit "X" ++ [10%N]) EventLoop
                    scrolled H)).
  reflexivity.
Defined.

(** X16: an append of text that ends in a newline, as both appends of
    [handle_send] are, leaves the cursor of the output pane at the end of
    the content from any cursor position, provided the content was empty or
    ended in a newline and the pane then has at most [10**6] rows. *)
Theorem appended_line_scrolls_to_bottom_from_any_cursor
  (data : str) (ctx : context) (app : App) :
  (0 <= cursor_position (output_area app))%Z ->
  (text (output_area app) = [] \/ exists t, text (output_area app) = t ++ [10%N]) ->
  (len (lines (text (insert_text (data ++ [10%N]) (output_area app)))) <= 1000000)%Z ->
  cursor_position (output_area (state_of (append_output (data ++ [10%N]) ctx app)))
  = len (text (output_area (state_of (append_output (data ++ [10%N]) ctx app)))).
Proof.
  intros Hc Ht Hrows. rewrite append_output_state. cbn [with_output_area output_area].
  exact (proj1 (append_line_from_any_cursor data (output_area app) Hc Ht Hrows)).
Qed.

Lemma appended_line_scrolls_to_bottom_from_any_cursor_witness :
  (0 <= cursor_position (output_area scrolled))%Z
  /\ (text (output_area scrolled) = []
      \/ exists t, text (output_area scrolled) = t ++ [10%N])
  /\ (len (lines (text (insert_text (lit "X" ++ [10%N]) (output_area scrolled))))
      <= 1000000)%Z
  /\ cursor_position
       (output_area (state_of (append_output (lit "X" ++ [10%N]) EventLoop scrolled)))
     = 8%Z.
Proof.
  assert (Hc : (0 <= cursor_position (output_area scrolled))%Z)
    by (vm_compute; discriminate).
  assert (Ht : text (output_area scrolled) = []
               \/ exists t, text (output_area scrolled) = t ++ [10%N]).
  { right. exists (lit "ab" ++ [10%N] ++ lit "cd"). reflexivity. }
  assert (Hrows : (len (lines (text (insert_text (lit "X" ++ [10%N])
                                      (output_area scrolled)))) <= 1000000)%Z)
    by (vm_compute; discriminate).
  split; [exact Hc|]. split; [exact Ht|]. split; [exact Hrows|].
  rewrite (appended_line_scrolls_to_bottom_from_any_cursor (lit "X") EventLoop scrolled
             Hc Ht Hrows).
  reflexivity.
Defined.

(** ** The ANSI theme *)

Section Theme.

Variable isdigit : N -> bool.
Variable int : str -> outcome Z.
Hypothesis runtime : ascii_runtime isdigit int.

Ltac theme_step :=
  cbn [send_all];
  first
    [ erewrite (send_digit runtime); [ | reflexivity | reflexivity | reflexivity ]
    | erewrite (send_semicolon runtime);
      [ | reflexivity | discriminate | reflexivity | simpl; lia ]
    | erewrite (send_m runtime);
      [ | reflexivity | discriminate | reflexivity | simpl; lia ]
    | erewrite send_escape; [ | reflexivity ]
    | erewrite send_bracket; [ | reflexivity ] ];
  cbn [app at_yield current_style applied_params formatted_text].

Ltac theme_constant k :=
  unfold k, ESC, lit; cbn [list_ascii_of_string map N_of_ascii app];
  cbv [N_of_digits N.add N.mul Pos.add Pos.mul Pos.succ];
  repeat theme_step; reflexivity.

Lemma send_all_theme_constants :
  Forall (fun constant =>
            send_all isdigit int (fst constant) parser_start
            = Returned (mkParser Top (Sgr [snd constant]) [snd constant] []))
    [(NEON_RED, [38; 2; 255; 60; 60]%Z); (NEON_GREEN, [38; 2; 0; 255; 140]%Z);
     (NEON_BLUE, [38; 2; 0; 210; 255]%Z); (NEON_PINK, [38; 2; 255; 0; 200]%Z);
     (DIM, [2%Z]); (RESET, [0%Z])].
Proof.
  unfold parser_start. repeat constructor; cbn [fst snd].
  - theme_constant NEON_RED.
  - theme_constant NEON_GREEN.
  - theme_constant NEON_BLUE.
  - theme_constant NEON_PINK.
  - theme_constant DIM.
  - theme_constant RESET.
Qed.

(** X17: each constant of the ANSI theme is one complete colour sequence:
    put before a line of text without escape sequences, it contributes no
    character to what the lexer shows and gives every character of the line
    the style selected by the parameters written in the constant. *)
Theorem theme_constants_select_a_style :
  Forall (fun constant =>
            forall line,
              no_escape line = true ->
              to_formatted_text_ANSI isdigit int (fst constant ++ line)
              = Returned (map (fun c => (Sgr [snd constant], [c])) line))
    [(NEON_RED, [38; 2; 255; 60; 60]%Z); (NEON_GREEN, [38; 2; 0; 255; 140]%Z);
     (NEON_BLUE, [38; 2; 0; 210; 255]%Z); (NEON_PINK, [38; 2; 255; 0; 200]%Z);
     (DIM, [2%Z]); (RESET, [0%Z])].
Proof.
  eapply Forall_impl; [|exact send_all_theme_constants].
  intros [k params] Hk line Hline. cbn [fst snd] in *.
  unfold to_formatted_text_ANSI.
  rewrite (send_all_app isdigit int), Hk.
  erewrite (@send_all_plain isdigit int line); [|exact Hline|reflexivity].
  reflexivity.
Qed.

End Theme.

Lemma theme_constants_select_a_style_witness :
  ascii_runtime isdigit_latin1 int_latin1
  /\ to_formatted_text_ANSI isdigit_latin1 int_latin1 (NEON_PINK ++ lit "ok")
     = Returned [(Sgr [[38; 2; 255; 0; 200]%Z], lit "o");
                 (Sgr [[38; 2; 255; 0; 200]%Z], lit "k")].
Proof.
  split; [exact latin1_is_ascii_runtime|].
  pose proof (theme_constants_select_a_style latin1_is_ascii_runtime) as H.
  rewrite Forall_forall in H.
  exact (H (NEON_PINK, [38; 2; 255; 0; 200]%Z)
           (or_intror (or_intror (or_intror (or_introl eq_refl))))
           (lit "ok") eq_refl).
Defined.
